(** * Dengue dashboard: a shallow embedding of [Dashboard.py]

    The script is one top-to-bottom pass over an in-memory table: it loads
    the CSV, derives [Month_Num], shows two totals, reads the filter widgets
    and the sidebar form, runs the [Add Data] handler, renders the charts
    for the selection and finally the sorted table.  The pass is embedded
    as the pure function [Dashboard.script]; the pandas calls it makes are
    embedded in [Module Pandas]. *)

From Stdlib Require Import ZArith List Bool Ascii String Lia.
From Stdlib Require Import Permutation Sorted DecimalString DecimalPos.
Import ListNotations.

Open Scope string_scope.
Open Scope Z_scope.

(** ** Python builtins used by the script *)

Module Py.

(** [int(s)] on an ASCII text: surrounding white space, an optional sign,
    then decimal digits, single underscores allowed between digits.
    [None] stands for the [ValueError] the builtin raises otherwise.  The
    script calls [int] on the value of the Year select box only, whose
    options are ASCII; the digits and blanks Python knows beyond ASCII are
    left out. *)

(** The ASCII characters [str.isspace] accepts: tab to carriage return,
    the four separators 28 to 31, and the blank. *)
Definition is_space (c : ascii) : bool :=
  let n := nat_of_ascii c in
  (Nat.eqb n 32 || (Nat.leb 9 n && Nat.leb n 13)
   || (Nat.leb 28 n && Nat.leb n 31))%bool.

Definition digit_of (c : ascii) : option Z :=
  let n := nat_of_ascii c in
  if (Nat.leb 48 n && Nat.leb n 57)%bool then Some (Z.of_nat (n - 48)) else None.

Fixpoint lstrip (l : list ascii) : list ascii :=
  match l with
  | c :: l' => if is_space c then lstrip l' else l
  | [] => []
  end.

Definition strip (l : list ascii) : list ascii :=
  rev (lstrip (rev (lstrip l))).

(** [digits acc after_digit l]: [after_digit] tells whether the previous
    character was a digit, the only place where an underscore may stand. *)
Fixpoint digits (acc : Z) (after_digit : bool) (l : list ascii) : option Z :=
  match l with
  | [] => if after_digit then Some acc else None
  | c :: l' =>
      match digit_of c with
      | Some d => digits (10 * acc + d) true l'
      | None =>
          if (Ascii.eqb c "_" && after_digit)%bool
          then match l' with
               | [] => None
               | c' :: _ => match digit_of c' with
                            | Some _ => digits acc false l'
                            | None => None
                            end
               end
          else None
      end
  end.

Definition int (s : string) : option Z :=
  match strip (list_ascii_of_string s) with
  | [] => None
  | c :: l' =>
      if Ascii.eqb c "-" then option_map Z.opp (digits 0 false l')
      else if Ascii.eqb c "+" then digits 0 false l'
      else digits 0 false (c :: l')
  end.

(** [str(n)] for an integer. *)
Definition str (n : Z) : string := NilZero.string_of_int (Z.to_int n).

(** [range(a, b)]. *)
Definition range (a b : Z) : list Z :=
  map (fun k => a + Z.of_nat k) (seq 0 (Z.to_nat (b - a))).

(** [f"{n:,}"]: decimal digits in groups of three from the right. *)
Fixpoint group3 (k : nat) (l : list ascii) : list ascii :=
  match l with
  | [] => []
  | c :: l' =>
      match k with
      | O => "," %char :: c :: group3 2 l'
      | S k' => c :: group3 k' l'
      end
  end.

Definition commas (ds : list ascii) : list ascii := rev (group3 3 (rev ds)).

Definition format_commas (n : Z) : string :=
  let ds := list_ascii_of_string (str (Z.abs n)) in
  let body := string_of_list_ascii (commas ds) in
  if n <? 0 then "-" ++ body else body.

(** [dict.get]-like lookup in a dict kept in insertion order. *)
Fixpoint dict_get {V : Type} (d : list (string * V)) (k : string) : option V :=
  match d with
  | [] => None
  | (k', v) :: d' => if String.eqb k' k then Some v else dict_get d' k
  end.

Definition keys {V : Type} (d : list (string * V)) : list string := map fst d.

(** [x in xs] on texts and on integers. *)
Definition str_in (x : string) (xs : list string) : bool :=
  existsb (String.eqb x) xs.

Definition int_in (x : Z) (xs : list Z) : bool :=
  existsb (Z.eqb x) xs.

(** Stable insertion sort, the model of [sorted] and of the stable
    sorters pandas uses: an element is put in front of the first element
    it does not exceed, so it stays in front of its equals. *)
Fixpoint insert {A : Type} (leb : A -> A -> bool) (x : A) (l : list A) : list A :=
  match l with
  | [] => [x]
  | y :: l' => if leb x y then x :: l else y :: insert leb x l'
  end.

Fixpoint sorted {A : Type} (leb : A -> A -> bool) (l : list A) : list A :=
  match l with
  | [] => []
  | x :: l' => insert leb x (sorted leb l')
  end.

End Py.

(** ** The pandas operations the script calls *)

Module Pandas.

(** Numeric columns are [int64]: sums wrap around silently. *)
Definition wrap64 (z : Z) : Z := (z + 2 ^ 63) mod 2 ^ 64 - 2 ^ 63.

(** [Series.sum()] of an [int64] column. *)
Definition sum (col : list Z) : Z :=
  fold_left (fun acc x => wrap64 (acc + x)) col 0.

(** [Series.unique()]: distinct values in order of first appearance. *)
Fixpoint unique {K : Type} (eqb : K -> K -> bool) (col : list K) : list K :=
  match col with
  | [] => []
  | k :: col' => k :: filter (fun k' => negb (eqb k k')) (unique eqb col')
  end.

(** A frame read by [read_csv] or built by [concat(ignore_index=True)] has
    the index 0, 1, 2, ...; it is kept as the plain list of its rows.
    [with_index] makes the labels explicit for the operations that carry
    them along. *)
Definition with_index {A : Type} (df : list A) : list (nat * A) :=
  combine (seq 0 (List.length df)) df.

(** [pd.concat([df, new_rows], ignore_index=True)]. *)
Definition concat {A : Type} (df new_rows : list A) : list A := df ++ new_rows.

(** [df.sort_values(by=[...])] on several columns: pandas sorts them with
    its stable lexicographic sorter, so this is a stable sort of the rows
    by the key order [leb]; every row keeps its index label. *)
Definition sort_values {A : Type} (leb : A -> A -> bool) (df : list A)
  : list (nat * A) :=
  Py.sorted (fun x y => leb (snd x) (snd y)) (with_index df).

(** Order of one sort column with NaN placed last (pandas' default). *)
Definition nan_last_leb (a b : option Z) : bool :=
  match a, b with
  | _, None => true
  | None, Some _ => false
  | Some x, Some y => x <=? y
  end.

(** [df.groupby(keys)]: one group per distinct key, groups in ascending
    key order, the rows of a group in frame order. *)
Definition groupby {A K : Type} (key : A -> K) (eqb leb : K -> K -> bool)
    (df : list A) : list (K * list A) :=
  map (fun k => (k, filter (fun r => eqb k (key r)) df))
      (Py.sorted leb (unique eqb (map key df))).

End Pandas.

(** ** The script *)

Module Dashboard.

(** One line of the CSV file: the five columns the script reads.  [Year]
    and the two counts are cells of integer columns, which [read_csv]
    loads as [int64]; a file with a cell outside that range gets another
    column type and is outside this model (see [int64_file]). *)
Record Observation := {
  Region : string;
  Year : Z;
  Month : string;
  Dengue_Cases : Z;
  Dengue_Deaths : Z
}.

(** A row of [df]: the CSV columns and the derived [Month_Num], which is
    NaN ([None]) when [Month] is no key of [month_mapping]. *)
Record Row := {
  columns : Observation;
  Month_Num : option Z
}.

Definition month_mapping : list (string * Z) :=
  [("January", 1); ("February", 2); ("March", 3); ("April", 4);
   ("May", 5); ("June", 6); ("July", 7); ("August", 8);
   ("September", 9); ("October", 10); ("November", 11); ("December", 12)].

(** [df['Month_Num'] = df['Month'].map(month_mapping)], row by row. *)
Definition with_Month_Num (o : Observation) : Row :=
  {| columns := o; Month_Num := Py.dict_get month_mapping (Month o) |}.

(** [drop(columns=["Month_Num"])]. *)
Definition drop_Month_Num (r : Row) : Observation := columns r.

(** Rows of [yearly_grouped]. *)
Module Grouped.
Record row := {
  Year : Z;
  Region : string;
  Dengue_Cases : Z;
  Dengue_Deaths : Z
}.
End Grouped.

(** What [px.bar] is given. *)
Record Figure := {
  data_frame : list Grouped.row;
  x : string;
  y : string;
  color : string;
  barmode : string;
  title : string
}.

Inductive Element :=
| error (msg : string)
| info (msg : string)
| success (msg : string)
| subheader (text : string)
| plotly_chart (fig : Figure).

(** The widget values of one pass.  The two counts come from
    [number_input(..., min_value=0, value=0)], which hands over no value
    below its minimum: they are naturals. *)
Record Inputs := {
  selected_regions : list string;
  selected_years : list Z;
  selected_months : list string;
  data_view_option : string;
  new_region : string;
  new_year : string;
  new_month : string;
  new_cases : N;
  new_deaths : N;
  add_data_clicked : bool
}.

(** What one pass renders. *)
Record Page := {
  total_cases_metric : string;
  total_deaths_metric : string;
  sidebar : list Element;
  main_page : list Element;
  data_table : list (nat * Observation)
}.

Inductive Outcome :=
| Stopped (msg : string)      (* [st.error] then [st.stop()] *)
| Raised                      (* uncaught [ValueError] of [int(new_year)] *)
| Rendered (page : Page).

(** Truth value of a Python list. *)
Definition truthy {A : Type} (l : list A) : bool :=
  match l with [] => false | _ :: _ => true end.

Definition total_cases (df : list Row) : Z :=
  Pandas.sum (map (fun r => Dengue_Cases (columns r)) df).

Definition total_deaths (df : list Row) : Z :=
  Pandas.sum (map (fun r => Dengue_Deaths (columns r)) df).

(** Options of the widgets. *)
Definition region_options (df : list Row) : list string :=
  Py.sorted String.leb (Pandas.unique String.eqb (map (fun r => Region (columns r)) df)).

Definition year_options (df : list Row) : list Z :=
  Py.sorted Z.leb (Pandas.unique Z.eqb (map (fun r => Year (columns r)) df)).

Definition month_options : list string := Py.keys month_mapping.

Definition view_options : list string :=
  ["-- Select --"; "Dengue Cases"; "Dengue Deaths"; "Both"].

Definition regions_with_empty (df : list Row) : list string :=
  "-- Select Region --" :: region_options df.

Definition years_with_empty : list string :=
  "-- Select Year --" :: map Py.str (Py.range 2010 2031).

Definition months_with_empty : list string :=
  "-- Select Month --" :: Py.keys month_mapping.

(** *** Sidebar: the body of [if st.sidebar.button("Add Data")] *)

Definition new_data (i : Inputs) (year : Z) : Observation :=
  {| Region := new_region i;
     Year := year;
     Month := new_month i;
     Dengue_Cases := Z.of_N (new_cases i);
     Dengue_Deaths := Z.of_N (new_deaths i) |}.

Definition add_data (df : list Row) (i : Inputs)
  : option (list Row * list Element) :=
  if (String.eqb (new_region i) "-- Select Region --"
      || String.eqb (new_month i) "-- Select Month --"
      || String.eqb (new_year i) "-- Select Year --")%bool
  then Some (df, [error "Please select valid Region, Year, and Month before adding data."])
  else
    match Py.int (new_year i) with
    | None => None
    | Some year =>
        let new_row := map with_Month_Num [new_data i year] in
        Some (Pandas.concat df new_row,
              [success "✅ New data added successfully! Please update filters to view."])
    end.

(** *** Main page content *)

Definition filtered_df (df : list Row) (i : Inputs) : list Row :=
  let filtered :=
    filter (fun r => (Py.str_in (Region (columns r)) (selected_regions i)
                      && Py.int_in (Year (columns r)) (selected_years i))%bool) df in
  if truthy (selected_months i)
  then filter (fun r => Py.str_in (Month (columns r)) (selected_months i)) filtered
  else filtered.

Definition group_key (r : Row) : Z * string :=
  (Year (columns r), Region (columns r)).

Definition key_eqb (k1 k2 : Z * string) : bool :=
  ((fst k1 =? fst k2) && String.eqb (snd k1) (snd k2))%bool.

Definition key_leb (k1 k2 : Z * string) : bool :=
  ((fst k1 <? fst k2) || ((fst k1 =? fst k2) && String.leb (snd k1) (snd k2)))%bool.

(** [groupby(['Year','Region'], as_index=False).agg({...: 'sum'})]. *)
Definition yearly_grouped (filtered : list Row) : list Grouped.row :=
  map (fun g =>
         {| Grouped.Year := fst (fst g);
            Grouped.Region := snd (fst g);
            Grouped.Dengue_Cases :=
              Pandas.sum (map (fun r => Dengue_Cases (columns r)) (snd g));
            Grouped.Dengue_Deaths :=
              Pandas.sum (map (fun r => Dengue_Deaths (columns r)) (snd g)) |})
      (Pandas.groupby group_key key_eqb key_leb filtered).

Definition fig_cases (grouped : list Grouped.row) : Figure :=
  {| data_frame := grouped; x := "Year"; y := "Dengue_Cases";
     color := "Region"; barmode := "group";
     title := "Yearly Dengue Cases by Region" |}.

Definition fig_deaths (grouped : list Grouped.row) : Figure :=
  {| data_frame := grouped; x := "Year"; y := "Dengue_Deaths";
     color := "Region"; barmode := "group";
     title := "Yearly Dengue Deaths by Region" |}.

Definition main_page_content (df : list Row) (i : Inputs) : list Element :=
  if (truthy (selected_regions i) && truthy (selected_years i))%bool then
    let filtered := filtered_df df i in
    if String.eqb (data_view_option i) "-- Select --"
    then [info "👉 Please select what to display: Dengue Cases, Deaths, or Both."]
    else
      let grouped := yearly_grouped filtered in
      (if Py.str_in (data_view_option i) ["Dengue Cases"; "Both"]
       then [subheader "📈 Dengue Cases by Year and Region";
             plotly_chart (fig_cases grouped)]
       else [])
      ++
      (if Py.str_in (data_view_option i) ["Dengue Deaths"; "Both"]
       then [subheader "📉 Dengue Deaths by Year and Region";
             plotly_chart (fig_deaths grouped)]
       else [])
  else [info "📊 Showing all data. Use filters above to narrow down."].

(** *** The table at the bottom *)

Definition by_Year_Month_Num (r1 r2 : Row) : bool :=
  ((Year (columns r1) <? Year (columns r2))
   || ((Year (columns r1) =? Year (columns r2))
       && Pandas.nan_last_leb (Month_Num r1) (Month_Num r2)))%bool.

Definition sorted_df (df : list Row) : list (nat * Observation) :=
  map (fun lr => (fst lr, drop_Month_Num (snd lr)))
      (Pandas.sort_values by_Year_Month_Num df).

(** *** One pass of the script *)

Definition script (read_csv : string + list Observation) (i : Inputs) : Outcome :=
  match read_csv with
  | inl e => Stopped ("Error loading data file: " ++ e)
  | inr csv =>
      let df := map with_Month_Num csv in
      let cases := Py.format_commas (total_cases df) in
      let deaths := Py.format_commas (total_deaths df) in
      match (if add_data_clicked i then add_data df i else Some (df, [])) with
      | None => Raised
      | Some (df, side) =>
          Rendered {| total_cases_metric := cases;
                      total_deaths_metric := deaths;
                      sidebar := side;
                      main_page := main_page_content df i;
                      data_table := sorted_df df |}
      end
  end.

End Dashboard.

(** ** Notions used to state the properties *)

Import Dashboard.

(** Order of two labelled rows by their index labels. *)
Definition label_lt {A : Type} (r1 r2 : nat * A) : Prop := (fst r1 < fst r2)%nat.

(** The sort key of a row of [df] in [sort_values(by=["Year", "Month_Num"])]. *)
Definition sort_key (r : Row) : Z * option Z := (Year (columns r), Month_Num r).

(** [same_key k lr]: the labelled row [lr] has sort key [k]. *)
Definition same_key (k : Z * option Z) (lr : nat * Row) : bool :=
  ((fst k =? Year (columns (snd lr)))
   && match snd k, Month_Num (snd lr) with
      | None, None => true
      | Some m, Some m' => m =? m'
      | _, _ => false
      end)%bool.

(** Exact (unbounded) sum of a column, against which the wrapping
    [Pandas.sum] is measured. *)
Definition zsum (col : list Z) : Z := fold_right Z.add 0 col.

(** The sidebar form holds a selection: each select box returns one of
    its options, and none is left at its placeholder (the first option). *)
Definition valid_form (i : Inputs) : Prop :=
  new_region i <> "-- Select Region --"
  /\ (In (new_year i) years_with_empty /\ new_year i <> "-- Select Year --")
  /\ (In (new_month i) months_with_empty /\ new_month i <> "-- Select Month --").

(** The row mask of [filtered_df]: Region and Year among the selected
    ones, and Month too when months are selected. *)
Definition passes_filters (i : Inputs) (r : Row) : bool :=
  (Py.str_in (Region (columns r)) (selected_regions i)
   && Py.int_in (Year (columns r)) (selected_years i)
   && (if truthy (selected_months i)
       then Py.str_in (Month (columns r)) (selected_months i)
       else true))%bool.

Definition added_msg : string :=
  "✅ New data added successfully! Please update filters to view.".

Definition invalid_msg : string :=
  "Please select valid Region, Year, and Month before adding data.".

Definition show_all_msg : string :=
  "📊 Showing all data. Use filters above to narrow down.".

(** *** Sample data *)

Definition obs (r : string) (y : Z) (m : string) (c d : Z) : Observation :=
  {| Region := r; Year := y; Month := m; Dengue_Cases := c; Dengue_Deaths := d |}.

Definition sample_csv : list Observation :=
  [obs "B" 2017 "March" 5 1; obs "A" 2016 "May" 10 1;
   obs "A" 2016 "January" 7 0; obs "B" 2016 "Smarch" 1 1;
   obs "A" 2016 "May" 11 2].

Definition sample_df : list Row := map with_Month_Num sample_csv.

Definition sample_inputs : Inputs :=
  {| selected_regions := ["A"; "B"]; selected_years := [2016];
     selected_months := []; data_view_option := "Both";
     new_region := "A"; new_year := "2016"; new_month := "May";
     new_cases := 120; new_deaths := 3; add_data_clicked := true |}.

(** The pass after [sample_inputs]: the same filters, no click. *)
Definition next_pass_inputs : Inputs :=
  {| selected_regions := ["A"; "B"]; selected_years := [2016];
     selected_months := []; data_view_option := "Both";
     new_region := "A"; new_year := "2016"; new_month := "May";
     new_cases := 120; new_deaths := 3; add_data_clicked := false |}.

Definition placeholder_inputs : Inputs :=
  {| selected_regions := ["A"]; selected_years := [2016];
     selected_months := ["May"]; data_view_option := "Dengue Cases";
     new_region := "-- Select Region --"; new_year := "2016"; new_month := "May";
     new_cases := 120; new_deaths := 3; add_data_clicked := true |}.

Definition no_region_inputs : Inputs :=
  {| selected_regions := []; selected_years := [2016];
     selected_months := ["May"]; data_view_option := "Both";
     new_region := "-- Select Region --"; new_year := "-- Select Year --";
     new_month := "-- Select Month --";
     new_cases := 0; new_deaths := 0; add_data_clicked := false |}.

(** *** Further notions *)

(** A list in ascending order of [leb]: every element is at most every
    later one. *)
Definition ascending {A : Type} (leb : A -> A -> bool) (l : list A) : Prop :=
  StronglySorted (fun a b => leb a b = true) l.

(** The (Year, Region) of a row of [yearly_grouped]. *)
Definition grouped_key (g : Grouped.row) : Z * string :=
  (Grouped.Year g, Grouped.Region g).

(** A text with its commas taken out. *)
Definition remove_commas (s : string) : string :=
  string_of_list_ascii
    (filter (fun c => negb (Ascii.eqb c ",")) (list_ascii_of_string s)).

(** The value of a decimal numeral read from the left, [acc] being the
    value of the digits already read. *)
Fixpoint uint_value (acc : Z) (d : Decimal.uint) : Z :=
  match d with
  | Decimal.Nil => acc
  | Decimal.D0 d => uint_value (10 * acc + 0) d
  | Decimal.D1 d => uint_value (10 * acc + 1) d
  | Decimal.D2 d => uint_value (10 * acc + 2) d
  | Decimal.D3 d => uint_value (10 * acc + 3) d
  | Decimal.D4 d => uint_value (10 * acc + 4) d
  | Decimal.D5 d => uint_value (10 * acc + 5) d
  | Decimal.D6 d => uint_value (10 * acc + 6) d
  | Decimal.D7 d => uint_value (10 * acc + 7) d
  | Decimal.D8 d => uint_value (10 * acc + 8) d
  | Decimal.D9 d => uint_value (10 * acc + 9) d
  end.

(** A value an [int64] cell can hold. *)
Definition in_int64 (z : Z) : Prop := - 2 ^ 63 <= z < 2 ^ 63.


(** A frame whose two count columns are [int64]. *)
Definition int64_counts (df : list Row) : Prop :=
  Forall (fun r => in_int64 (Dengue_Cases (columns r))
                   /\ in_int64 (Dengue_Deaths (columns r))) df.

(** A character that is a decimal digit. *)
Definition is_digit (c : ascii) : bool :=
  match Py.digit_of c with Some _ => true | None => false end.

(** * Properties *)

(** ** The stable sorter *)

Section Sorter.

Context {A : Type} (leb : A -> A -> bool).

Lemma insert_perm (a : A) (l : list A) :
  Permutation (Py.insert leb a l) (a :: l).
Proof.
  induction l as [|b l IH]; simpl; [reflexivity|].
  destruct (leb a b); [reflexivity|].
  rewrite IH. apply perm_swap.
Qed.

Lemma sorted_perm (l : list A) : Permutation (Py.sorted leb l) l.
Proof.
  induction l as [|a l IH]; simpl; [constructor|].
  rewrite insert_perm. now constructor.
Qed.

(** A class [p] of elements that do not exceed one another (the rows of
    one sort key) passes through the sorter in its original order. *)
Variable p : A -> bool.
Hypothesis p_tied : forall a b, p a = true -> p b = true -> leb a b = true.

Lemma filter_insert (a : A) (l : list A) :
  filter p (Py.insert leb a l) = filter p (a :: l).
Proof.
  induction l as [|b l IH]; [reflexivity|].
  cbn [Py.insert]. destruct (leb a b) eqn:Hab; [reflexivity|].
  cbn [filter] in *. rewrite IH.
  destruct (p a) eqn:Ha, (p b) eqn:Hb; try reflexivity.
  rewrite (p_tied _ _ Ha Hb) in Hab. discriminate.
Qed.

Lemma filter_sorted (l : list A) :
  filter p (Py.sorted leb l) = filter p l.
Proof.
  induction l as [|a l IH]; [reflexivity|].
  cbn [Py.sorted]. rewrite filter_insert. cbn [filter]. now rewrite IH.
Qed.

End Sorter.

(** ** Index labels *)

Section Labels.

Context {A : Type}.

Lemma labels_from_increasing (l : list A) (s : nat) :
  StronglySorted label_lt (combine (seq s (List.length l)) l).
Proof.
  revert s. induction l as [|a l IH]; intros s; simpl; constructor.
  - apply IH.
  - apply Forall_forall. intros [k b] Hin.
    apply in_combine_l, in_seq in Hin. unfold label_lt. simpl. lia.
Qed.

Lemma increasing_filter (f : nat * A -> bool) (l : list (nat * A)) :
  StronglySorted label_lt l -> StronglySorted label_lt (filter f l).
Proof.
  induction 1 as [|a l Hs IH Hall]; simpl; [constructor|].
  destruct (f a); [|exact IH].
  constructor; [exact IH|].
  rewrite Forall_forall in *. intros b Hb.
  apply filter_In in Hb. now apply Hall.
Qed.

Lemma increasing_order (l1 l2 l3 : list (nat * A)) (r1 r2 : nat * A) :
  StronglySorted label_lt (l1 ++ r1 :: l2 ++ r2 :: l3) -> label_lt r1 r2.
Proof.
  induction l1 as [|a l1 IH]; simpl; intros Hs;
    apply StronglySorted_inv in Hs as [Hs Hall].
  - rewrite Forall_forall in Hall. apply Hall, in_elt.
  - now apply IH.
Qed.

Lemma with_index_labels (df : list A) :
  map fst (Pandas.with_index df) = seq 0 (List.length df).
Proof.
  unfold Pandas.with_index. generalize 0%nat.
  induction df as [|a df IH]; intros s; simpl; [reflexivity|].
  now rewrite IH.
Qed.

Lemma with_index_rows (df : list A) :
  map snd (Pandas.with_index df) = df.
Proof.
  unfold Pandas.with_index. generalize 0%nat.
  induction df as [|a df IH]; intros s; simpl; [reflexivity|].
  now rewrite IH.
Qed.

Lemma with_index_lookup (df : list A) (k : nat) (a : A) :
  In (k, a) (Pandas.with_index df) -> nth_error df k = Some a.
Proof.
  unfold Pandas.with_index.
  assert (G : forall s, In (k, a) (combine (seq s (List.length df)) df) ->
                        (s <= k)%nat /\ nth_error df (k - s) = Some a).
  { induction df as [|b df IH]; intros s; simpl; [tauto|].
    intros [E|Hin].
    - inversion E; subst. split; [lia|]. now rewrite Nat.sub_diag.
    - apply IH in Hin as [Hle Hn]. split; [lia|].
      replace (k - s)%nat with (S (k - S s)) by lia. exact Hn. }
  intros Hin. apply G in Hin as [_ Hn]. now rewrite Nat.sub_0_r in Hn.
Qed.

Lemma split_two (l : list A) (i j : nat) (a b : A) :
  (i < j)%nat -> nth_error l i = Some a -> nth_error l j = Some b ->
  exists l1 l2 l3, l = (l1 ++ a :: l2 ++ b :: l3)%list.
Proof.
  intros Hij Hi Hj.
  apply nth_error_split in Hi as (l1 & l' & -> & Hlen).
  rewrite nth_error_app2 in Hj by lia.
  replace (j - List.length l1)%nat with (S (j - List.length l1 - 1)) in Hj by lia.
  simpl in Hj. apply nth_error_split in Hj as (l2 & l3 & -> & _).
  now exists l1, l2, l3.
Qed.

End Labels.

(** ** The sorted table *)

Lemma same_key_spec (k : Z * option Z) (lr : nat * Row) :
  same_key k lr = true <-> sort_key (snd lr) = k.
Proof.
  destruct k as [ky km], lr as [n [o mn]]. unfold same_key, sort_key. simpl.
  rewrite andb_true_iff, Z.eqb_eq.
  destruct km as [m|], mn as [m'|]; try rewrite Z.eqb_eq;
    split; try (intros [-> H]); try (intros H; inversion H; subst);
    try discriminate; try (split; congruence); try congruence; auto.
Qed.

Lemma same_key_tied (k : Z * option Z) (a b : nat * Row) :
  same_key k a = true -> same_key k b = true ->
  by_Year_Month_Num (snd a) (snd b) = true.
Proof.
  rewrite !same_key_spec. intros Ha Hb.
  destruct a as [na [oa ma]], b as [nb [ob mb]]. unfold sort_key in *.
  simpl in *. subst k. inversion Hb as [[Hy Hm]].
  unfold by_Year_Month_Num. simpl. rewrite Hy, Z.eqb_refl, Z.ltb_irrefl. simpl.
  destruct ma as [m|]; simpl; [apply Z.leb_refl | reflexivity].
Qed.

(** Rows of one sort key come out of [sort_values] in frame order. *)
Lemma sort_values_stable (df : list Row) (k : Z * option Z) :
  filter (same_key k) (Pandas.sort_values by_Year_Month_Num df)
  = filter (same_key k) (Pandas.with_index df).
Proof.
  unfold Pandas.sort_values. apply filter_sorted. apply same_key_tied.
Qed.

Lemma sort_values_perm (df : list Row) :
  Permutation (Pandas.sort_values by_Year_Month_Num df) (Pandas.with_index df).
Proof. apply sorted_perm. Qed.

(** C8: the table has as many rows as the dataset and its rows are a
    permutation of the dataset's rows with [Month_Num] dropped; the index
    labels shown are those of the dataset, each once. *)
Theorem C8_sorted_df_permutation (df : list Row) :
  List.length (sorted_df df) = List.length df
  /\ Permutation (map snd (sorted_df df)) (map drop_Month_Num df)
  /\ Permutation (map fst (sorted_df df)) (seq 0 (List.length df)).
Proof.
  unfold sorted_df.
  pose proof (sort_values_perm df) as Hp.
  split; [|split].
  - rewrite length_map, (Permutation_length Hp).
    rewrite <- (with_index_rows df) at 2. now rewrite length_map.
  - rewrite map_map. simpl.
    rewrite <- (map_map snd drop_Month_Num).
    apply Permutation_map.
    rewrite <- (with_index_rows df) at 2. now apply Permutation_map.
  - rewrite map_map. simpl.
    rewrite <- with_index_labels. now apply Permutation_map.
Qed.

(** C2: [sorted_df] is stable.  Two rows of the table whose dataset rows
    (found by their index labels) have the same (Year, Month_Num) stand in
    the table in the order of their labels, that is in dataset order. *)
Theorem C2_sorted_df_stable (df : list Row) (i j a b : nat) (ra rb : Observation) :
  (i < j)%nat ->
  nth_error (sorted_df df) i = Some (a, ra) ->
  nth_error (sorted_df df) j = Some (b, rb) ->
  option_map sort_key (nth_error df a) = option_map sort_key (nth_error df b) ->
  (a < b)%nat.
Proof.
  unfold sorted_df. intros Hij Hi Hj Hkey.
  rewrite nth_error_map in Hi, Hj.
  destruct (nth_error (Pandas.sort_values by_Year_Month_Num df) i)
    as [[a' fa]|] eqn:Ei; [|discriminate].
  destruct (nth_error (Pandas.sort_values by_Year_Month_Num df) j)
    as [[b' fb]|] eqn:Ej; [|discriminate].
  simpl in Hi, Hj. inversion Hi; subst a' ra. inversion Hj; subst b' rb.
  clear Hi Hj.
  pose proof (sort_values_perm df) as Hp.
  assert (Ha : nth_error df a = Some fa).
  { apply with_index_lookup, (Permutation_in _ Hp), (nth_error_In _ _ Ei). }
  assert (Hb : nth_error df b = Some fb).
  { apply with_index_lookup, (Permutation_in _ Hp), (nth_error_In _ _ Ej). }
  rewrite Ha, Hb in Hkey. simpl in Hkey. inversion Hkey as [Hk].
  destruct (split_two _ _ _ _ _ Hij Ei Ej) as (l1 & l2 & l3 & Hsplit).
  pose proof (sort_values_stable df (sort_key fa)) as Hst.
  rewrite Hsplit in Hst.
  rewrite filter_app in Hst. cbn [filter] in Hst.
  rewrite filter_app in Hst. cbn [filter] in Hst.
  assert (Ta : same_key (sort_key fa) (a, fa) = true)
    by now apply same_key_spec.
  assert (Tb : same_key (sort_key fa) (b, fb) = true)
    by (apply same_key_spec; simpl; congruence).
  rewrite Ta, Tb in Hst.
  pose proof (increasing_filter (same_key (sort_key fa)) _
                (labels_from_increasing df 0)) as Hinc.
  fold (Pandas.with_index df) in Hinc. rewrite <- Hst in Hinc.
  apply increasing_order in Hinc. exact Hinc.
Qed.

(** ** Sums of [int64] columns *)

Lemma wrap64_add_l (a b : Z) :
  Pandas.wrap64 (Pandas.wrap64 a + b) = Pandas.wrap64 (a + b).
Proof.
  unfold Pandas.wrap64.
  replace ((a + 2 ^ 63) mod 2 ^ 64 - 2 ^ 63 + b + 2 ^ 63)
    with ((a + 2 ^ 63) mod 2 ^ 64 + b) by ring.
  rewrite Zplus_mod_idemp_l. do 2 f_equal. ring.
Qed.

Lemma wrap64_add_r (a b : Z) :
  Pandas.wrap64 (a + Pandas.wrap64 b) = Pandas.wrap64 (a + b).
Proof. rewrite Z.add_comm, wrap64_add_l. f_equal. ring. Qed.

Lemma sum_from (col : list Z) (a : Z) :
  fold_left (fun acc v => Pandas.wrap64 (acc + v)) col (Pandas.wrap64 a)
  = Pandas.wrap64 (a + zsum col).
Proof.
  revert a. induction col as [|v col IH]; intros a; simpl.
  - now rewrite Z.add_0_r.
  - rewrite wrap64_add_l, IH. f_equal. ring.
Qed.

(** The wrapping sum is the exact sum brought back into [int64]. *)
Lemma sum_exact (col : list Z) : Pandas.sum col = Pandas.wrap64 (zsum col).
Proof.
  unfold Pandas.sum. change 0 with (Pandas.wrap64 0) at 1.
  now rewrite sum_from.
Qed.

Lemma sum_of_sums {K : Type} (g : K -> list Z) (ks : list K) :
  Pandas.sum (map (fun k => Pandas.sum (g k)) ks)
  = Pandas.wrap64 (zsum (map (fun k => zsum (g k)) ks)).
Proof.
  rewrite sum_exact.
  induction ks as [|k ks IH]; [reflexivity|].
  cbn [map zsum fold_right]. fold (zsum (map (fun k => Pandas.sum (g k)) ks)).
  fold (zsum (map (fun k => zsum (g k)) ks)).
  rewrite sum_exact, wrap64_add_l.
  rewrite <- wrap64_add_r, IH, wrap64_add_r. reflexivity.
Qed.

(** ** Grouping *)

Section Grouping.

Context {A K : Type} (key : A -> K) (eqb : K -> K -> bool).
Hypothesis eqb_spec : forall k1 k2, eqb k1 k2 = true <-> k1 = k2.

Lemma unique_In (col : list K) (k : K) :
  In k (Pandas.unique eqb col) <-> In k col.
Proof.
  induction col as [|k0 col IH]; simpl; [tauto|].
  rewrite filter_In, IH, negb_true_iff.
  split.
  - intros [E|[Hin _]]; auto.
  - intros [E|Hin]; auto.
    destruct (eqb k0 k) eqn:Ek; [left; now apply eqb_spec|right; auto].
Qed.

Lemma unique_NoDup (col : list K) : NoDup (Pandas.unique eqb col).
Proof.
  induction col as [|k0 col IH]; simpl; constructor.
  - rewrite filter_In. intros [_ Hne].
    rewrite negb_true_iff in Hne.
    assert (eqb k0 k0 = true) by now apply eqb_spec. congruence.
  - now apply NoDup_filter.
Qed.

(** A value counted once under its own key and nowhere else. *)
Lemma zsum_single (c : Z) (k0 : K) (ks : list K) :
  NoDup ks -> In k0 ks ->
  zsum (map (fun k => if eqb k k0 then c else 0) ks) = c.
Proof.
  induction 1 as [|k ks Hnin Hnd IH]; simpl; [tauto|].
  assert (Hz : forall l, ~ In k0 l ->
               zsum (map (fun k => if eqb k k0 then c else 0) l) = 0).
  { induction l as [|k' l IHl]; simpl; intros Hn; [reflexivity|].
    destruct (eqb k' k0) eqn:E.
    - apply eqb_spec in E. tauto.
    - rewrite IHl; tauto. }
  intros [E|Hin].
  - subst k0. assert (T : eqb k k = true) by now apply eqb_spec.
    rewrite T. fold (zsum (map (fun k1 => if eqb k1 k then c else 0) ks)).
    rewrite Hz by assumption. ring.
  - destruct (eqb k k0) eqn:E.
    + apply eqb_spec in E. subst. tauto.
    + fold (zsum (map (fun k1 => if eqb k1 k0 then c else 0) ks)).
      rewrite IH by assumption. ring.
Qed.

Lemma zsum_map_add (f g : K -> Z) (ks : list K) :
  zsum (map (fun k => f k + g k) ks) = zsum (map f ks) + zsum (map g ks).
Proof.
  induction ks as [|k ks IH]; simpl; [reflexivity|].
  fold (zsum (map (fun k => f k + g k) ks)).
  fold (zsum (map f ks)). fold (zsum (map g ks)). rewrite IH. ring.
Qed.

(** Splitting a column by key and adding the parts gives the column's
    sum, when the keys are distinct and every row's key is among them. *)
Lemma zsum_by_key (v : A -> Z) (ks : list K) (df : list A) :
  NoDup ks -> (forall r, In r df -> In (key r) ks) ->
  zsum (map (fun k => zsum (map v (filter (fun r => eqb k (key r)) df))) ks)
  = zsum (map v df).
Proof.
  intros Hnd. induction df as [|r df IH]; intros Hcov.
  - simpl. induction ks as [|k ks IHk]; simpl; [reflexivity|].
    inversion Hnd; subst. now apply IHk.
  - cbn [map zsum fold_right]. fold (zsum (map v df)).
    rewrite <- IH by (intros r' Hr'; apply Hcov; now right).
    rewrite <- (zsum_single (v r) (key r) ks Hnd) at 1
      by (apply Hcov; now left).
    rewrite <- zsum_map_add. f_equal. apply map_ext. intros k.
    cbn [filter]. destruct (eqb k (key r)); reflexivity.
Qed.

(** Adding up a column group by group gives the column's wrapping sum. *)
Lemma groupby_sum (leb : K -> K -> bool) (v : A -> Z) (df : list A) :
  Pandas.sum (map (fun g => Pandas.sum (map v (snd g)))
                  (Pandas.groupby key eqb leb df))
  = Pandas.sum (map v df).
Proof.
  unfold Pandas.groupby. rewrite map_map. cbn [snd].
  rewrite (sum_of_sums (fun k => map v (filter (fun r => eqb k (key r)) df))).
  rewrite sum_exact. f_equal.
  pose proof (sorted_perm leb (Pandas.unique eqb (map key df))) as Hp.
  apply zsum_by_key.
  - apply (Permutation_NoDup (Permutation_sym Hp)), unique_NoDup.
  - intros r Hr. apply (Permutation_in _ (Permutation_sym Hp)).
    apply unique_In. now apply in_map.
Qed.

End Grouping.

Lemma key_eqb_spec (k1 k2 : Z * string) : key_eqb k1 k2 = true <-> k1 = k2.
Proof.
  destruct k1 as [y1 r1], k2 as [y2 r2]. unfold key_eqb. simpl.
  rewrite andb_true_iff, Z.eqb_eq, String.eqb_eq.
  split; [intros [-> ->]; reflexivity | intros H; inversion H; auto].
Qed.

(** The sums of Dengue_Cases and of Dengue_Deaths over the rows of
    [yearly_grouped] equal the sums of those columns over [filtered_df]. *)
Lemma yearly_grouped_sums (df : list Row) (i : Inputs) :
  Pandas.sum (map Grouped.Dengue_Cases (yearly_grouped (filtered_df df i)))
  = Pandas.sum (map (fun r => Dengue_Cases (columns r)) (filtered_df df i))
  /\
  Pandas.sum (map Grouped.Dengue_Deaths (yearly_grouped (filtered_df df i)))
  = Pandas.sum (map (fun r => Dengue_Deaths (columns r)) (filtered_df df i)).
Proof.
  unfold yearly_grouped. rewrite !map_map. cbn [Grouped.Dengue_Cases Grouped.Dengue_Deaths].
  split.
  - apply (groupby_sum group_key key_eqb key_eqb_spec key_leb
             (fun r => Dengue_Cases (columns r))).
  - apply (groupby_sum group_key key_eqb key_eqb_spec key_leb
             (fun r => Dengue_Deaths (columns r))).
Qed.

(** ** The sidebar form *)

Lemma year_option_int (s : string) :
  In s years_with_empty -> s <> "-- Select Year --" ->
  exists year, Py.int s = Some year /\ Py.str year = s /\ 2010 <= year <= 2030.
Proof.
  intros Hin Hne. vm_compute in Hin.
  repeat (destruct Hin as [Hin|Hin];
          [subst s;
           try (exfalso; apply Hne; reflexivity);
           try (eexists; split; [vm_compute; reflexivity|];
                split; [vm_compute; reflexivity | lia]) |]).
  destruct Hin.
Qed.

Lemma month_option_num (m : string) :
  In m months_with_empty -> m <> "-- Select Month --" ->
  exists n, Py.dict_get month_mapping m = Some n /\ 1 <= n <= 12.
Proof.
  intros Hin Hne. vm_compute in Hin.
  repeat (destruct Hin as [Hin|Hin];
          [subst m;
           try (exfalso; apply Hne; reflexivity);
           try (eexists; split; [vm_compute; reflexivity | lia]) |]).
  destruct Hin.
Qed.

(** The success branch of the handler. *)
Lemma add_data_accepts (df : list Row) (i : Inputs) (year : Z) :
  new_region i <> "-- Select Region --" ->
  new_month i <> "-- Select Month --" ->
  new_year i <> "-- Select Year --" ->
  Py.int (new_year i) = Some year ->
  add_data df i
  = Some ((df ++ [with_Month_Num (new_data i year)])%list, [success added_msg]).
Proof.
  intros Hr Hm Hy Hint. unfold add_data.
  apply String.eqb_neq in Hr, Hm, Hy. rewrite Hr, Hm, Hy, Hint. reflexivity.
Qed.

(** What a handler result with the success message tells. *)
Lemma add_data_success_inv (df df' : list Row) (i : Inputs) (msg : string) :
  add_data df i = Some (df', [success msg]) ->
  exists year, Py.int (new_year i) = Some year
               /\ df' = (df ++ [with_Month_Num (new_data i year)])%list.
Proof.
  unfold add_data.
  destruct (_ || _ || _)%bool; [discriminate|].
  destruct (Py.int (new_year i)) as [year|]; [|discriminate].
  intros H. inversion H. now exists year.
Qed.

(** The handler either leaves the dataset as it is or puts one row at its
    end; it fails only when [int(new_year)] does. *)
Lemma add_data_cases (df : list Row) (i : Inputs) :
  (add_data df i = Some (df, [error invalid_msg])
   /\ (new_region i = "-- Select Region --"
       \/ new_month i = "-- Select Month --"
       \/ new_year i = "-- Select Year --"))
  \/ (new_region i <> "-- Select Region --"
      /\ new_month i <> "-- Select Month --"
      /\ new_year i <> "-- Select Year --"
      /\ ((add_data df i = None /\ Py.int (new_year i) = None)
          \/ exists year,
               Py.int (new_year i) = Some year
               /\ add_data df i
                  = Some ((df ++ [with_Month_Num (new_data i year)])%list,
                          [success added_msg]))).
Proof.
  unfold add_data.
  destruct (String.eqb (new_region i) "-- Select Region --") eqn:Er;
    [left; split; [reflexivity | apply String.eqb_eq in Er; auto]|].
  destruct (String.eqb (new_month i) "-- Select Month --") eqn:Em;
    [left; split; [reflexivity | apply String.eqb_eq in Em; auto]|].
  destruct (String.eqb (new_year i) "-- Select Year --") eqn:Ey;
    [left; split; [reflexivity | apply String.eqb_eq in Ey; auto]|].
  right. apply String.eqb_neq in Er, Em, Ey. simpl.
  repeat (split; [assumption|]).
  destruct (Py.int (new_year i)) as [year|]; [right; now exists year | left; auto].
Qed.

(** C5: a form with a selection in every box appends exactly one row at
    the end of the dataset, the rows before it unchanged and in place; the
    new row carries the form's values, its [Month_Num] is the entry of
    [month_mapping] for its month, and the dataset is one row longer. *)
Theorem C5_add_data_appends_one_row (df : list Row) (i : Inputs) :
  valid_form i ->
  exists year n,
    Py.int (new_year i) = Some year
    /\ Py.dict_get month_mapping (new_month i) = Some n
    /\ add_data df i
       = Some ((df ++ [{| columns := new_data i year; Month_Num := Some n |}])%list,
               [success added_msg])
    /\ List.length (df ++ [{| columns := new_data i year; Month_Num := Some n |}])
       = S (List.length df).
Proof.
  intros (Hr & (Hyin & Hy) & (Hmin & Hm)).
  destruct (year_option_int _ Hyin Hy) as (year & Hint & _).
  destruct (month_option_num _ Hmin Hm) as (n & Hn & _).
  exists year, n. repeat split; try assumption.
  - rewrite (add_data_accepts df i year Hr Hm Hy Hint).
    unfold with_Month_Num. cbn [Month new_data]. now rewrite Hn.
  - rewrite length_app. simpl. lia.
Qed.

Lemma C5_witness :
  valid_form sample_inputs
  /\ exists year n,
    Py.int (new_year sample_inputs) = Some year
    /\ Py.dict_get month_mapping (new_month sample_inputs) = Some n
    /\ add_data sample_df sample_inputs
       = Some ((sample_df
                ++ [{| columns := new_data sample_inputs year; Month_Num := Some n |}])%list,
               [success added_msg])
    /\ List.length (sample_df
                    ++ [{| columns := new_data sample_inputs year; Month_Num := Some n |}])
       = S (List.length sample_df).
Proof.
  assert (V : valid_form sample_inputs).
  { unfold valid_form. simpl. repeat split; try discriminate.
    - vm_compute. tauto.
    - vm_compute. tauto. }
  split; [exact V | exact (C5_add_data_appends_one_row sample_df sample_inputs V)].
Defined.

(** C6: a form with the Region, Year or Month box left at its placeholder
    is answered with the validation message, and the handler hands back
    the dataset as it was. *)
Theorem C6_placeholder_rejected (df : list Row) (i : Inputs) :
  new_region i = "-- Select Region --"
  \/ new_year i = "-- Select Year --"
  \/ new_month i = "-- Select Month --" ->
  add_data df i = Some (df, [error invalid_msg]).
Proof.
  intros H. unfold add_data.
  destruct H as [H|[H|H]]; rewrite H; rewrite String.eqb_refl;
    rewrite ?orb_true_r; reflexivity.
Qed.

Lemma C6_witness :
  (new_region placeholder_inputs = "-- Select Region --"
   \/ new_year placeholder_inputs = "-- Select Year --"
   \/ new_month placeholder_inputs = "-- Select Month --")
  /\ add_data sample_df placeholder_inputs = Some (sample_df, [error invalid_msg]).
Proof.
  split.
  - left. reflexivity.
  - apply (C6_placeholder_rejected sample_df placeholder_inputs). left. reflexivity.
Defined.



(** ** Filtering *)

Lemma str_in_In (s : string) (l : list string) :
  Py.str_in s l = true <-> In s l.
Proof.
  unfold Py.str_in. rewrite existsb_exists. split.
  - intros (s' & Hin & E). apply String.eqb_eq in E. now subst.
  - intros Hin. exists s. split; [assumption | apply String.eqb_refl].
Qed.

Lemma int_in_In (n : Z) (l : list Z) :
  Py.int_in n l = true <-> In n l.
Proof.
  unfold Py.int_in. rewrite existsb_exists. split.
  - intros (n' & Hin & E). apply Z.eqb_eq in E. now subst.
  - intros Hin. exists n. split; [assumption | apply Z.eqb_refl].
Qed.

Lemma filter_twice {A : Type} (f g : A -> bool) (l : list A) :
  filter g (filter f l) = filter (fun a => (f a && g a)%bool) l.
Proof.
  induction l as [|a l IH]; simpl; [reflexivity|].
  destruct (f a); simpl; [destruct (g a)|]; now rewrite IH.
Qed.

(** The two masks of [filtered_df] as one. *)
Lemma filtered_df_mask (df : list Row) (i : Inputs) :
  filtered_df df i = filter (passes_filters i) df.
Proof.
  unfold filtered_df, passes_filters.
  destruct (truthy (selected_months i)).
  - apply filter_twice.
  - apply filter_ext. intros r. now rewrite andb_true_r.
Qed.

Lemma filtered_df_concat (df : list Row) (r : Row) (i : Inputs) :
  filtered_df (df ++ [r]) i
  = (filtered_df df i ++ (if passes_filters i r then [r] else []))%list.
Proof. rewrite !filtered_df_mask, filter_app. reflexivity. Qed.

(** The main page reads the dataset through [filtered_df] only. *)
Lemma main_page_content_ext (df1 df2 : list Row) (i : Inputs) :
  filtered_df df1 i = filtered_df df2 i ->
  main_page_content df1 i = main_page_content df2 i.
Proof. intros H. unfold main_page_content. now rewrite H. Qed.

(** C4: with no region selected or no year selected, whatever the dataset,
    the months and the display mode, the main page is the single
    "Showing all data" notice and holds no chart. *)
Theorem C4_empty_selection_shows_all (df : list Row) (i : Inputs) :
  selected_regions i = [] \/ selected_years i = [] ->
  main_page_content df i = [info show_all_msg]
  /\ forall fig, ~ In (plotly_chart fig) (main_page_content df i).
Proof.
  intros H.
  assert (E : main_page_content df i = [info show_all_msg]).
  { unfold main_page_content.
    destruct H as [H|H]; rewrite H; simpl; rewrite ?andb_false_r; reflexivity. }
  split; [exact E|].
  intros fig Hin. rewrite E in Hin. destruct Hin as [Hin|[]]. discriminate Hin.
Qed.

Lemma C4_witness :
  (selected_regions no_region_inputs = [] \/ selected_years no_region_inputs = [])
  /\ main_page_content sample_df no_region_inputs = [info show_all_msg]
  /\ forall fig, ~ In (plotly_chart fig) (main_page_content sample_df no_region_inputs).
Proof.
  split.
  - left. reflexivity.
  - apply (C4_empty_selection_shows_all sample_df no_region_inputs).
    left. reflexivity.
Defined.

(** C10: the row appended for a valid form holds as Year the integer that
    the selected text option denotes ([int(new_year)] never fails on an
    option, and [str] of the result is the option again); the integer
    membership test of the Year filter therefore holds for the new row
    whenever that year is selected, and the row is in [filtered_df] when
    its region (and month, if months are selected) is selected too. *)
Theorem C10_appended_year_is_integer (df : list Row) (i : Inputs) :
  valid_form i ->
  exists year r,
    Py.int (new_year i) = Some year
    /\ Py.str year = new_year i
    /\ add_data df i = Some ((df ++ [r])%list, [success added_msg])
    /\ Year (columns r) = year
    /\ (In year (selected_years i) ->
        Py.int_in (Year (columns r)) (selected_years i) = true)
    /\ (In year (selected_years i) ->
        In (new_region i) (selected_regions i) ->
        selected_months i = [] \/ In (new_month i) (selected_months i) ->
        In r (filtered_df (df ++ [r]) i)).
Proof.
  intros (Hr & (Hyin & Hy) & (Hmin & Hm)).
  destruct (year_option_int _ Hyin Hy) as (year & Hint & Hstr & _).
  exists year, (with_Month_Num (new_data i year)).
  split; [assumption|]. split; [assumption|].
  split; [now apply add_data_accepts|]. split; [reflexivity|].
  split.
  - intros Hsel. now apply int_in_In.
  - intros Hsel Hreg Hmon.
    rewrite filtered_df_concat. apply in_or_app. right.
    assert (P : passes_filters i (with_Month_Num (new_data i year)) = true).
    { unfold passes_filters. cbn [with_Month_Num columns new_data Region Year Month].
      apply str_in_In in Hreg. apply int_in_In in Hsel. rewrite Hreg, Hsel. simpl.
      destruct Hmon as [Hmon|Hmon].
      - now rewrite Hmon.
      - apply str_in_In in Hmon. rewrite Hmon. now destruct (truthy _). }
    rewrite P. now left.
Qed.

Lemma C10_witness :
  valid_form sample_inputs
  /\ exists year r,
    Py.int (new_year sample_inputs) = Some year
    /\ Py.str year = new_year sample_inputs
    /\ add_data sample_df sample_inputs
       = Some ((sample_df ++ [r])%list, [success added_msg])
    /\ Year (columns r) = year
    /\ (In year (selected_years sample_inputs) ->
        Py.int_in (Year (columns r)) (selected_years sample_inputs) = true)
    /\ (In year (selected_years sample_inputs) ->
        In (new_region sample_inputs) (selected_regions sample_inputs) ->
        selected_months sample_inputs = []
        \/ In (new_month sample_inputs) (selected_months sample_inputs) ->
        In r (filtered_df (sample_df ++ [r]) sample_inputs)).
Proof.
  assert (V : valid_form sample_inputs).
  { unfold valid_form. simpl. repeat split; try discriminate.
    - vm_compute. tauto.
    - vm_compute. tauto. }
  split; [exact V | exact (C10_appended_year_is_integer sample_df sample_inputs V)].
Defined.

(** ** The whole pass *)

(** C9: the two totals shown are the sums over the whole loaded dataset,
    formatted; any two passes over the same file show the same totals,
    whatever the regions, years, months and display mode selected. *)
Theorem C9_totals_ignore_selection
    (csv : list Observation) (i1 i2 : Inputs) (p1 p2 : Page) :
  script (inr csv) i1 = Rendered p1 ->
  script (inr csv) i2 = Rendered p2 ->
  total_cases_metric p1 = Py.format_commas (total_cases (map with_Month_Num csv))
  /\ total_deaths_metric p1 = Py.format_commas (total_deaths (map with_Month_Num csv))
  /\ total_cases_metric p1 = total_cases_metric p2
  /\ total_deaths_metric p1 = total_deaths_metric p2.
Proof.
  unfold script. intros H1 H2.
  destruct (if add_data_clicked i1 then _ else _) as [[d1 s1]|]; [|discriminate].
  destruct (if add_data_clicked i2 then _ else _) as [[d2 s2]|]; [|discriminate].
  inversion H1; inversion H2; subst. simpl. auto.
Qed.

Lemma C9_witness :
  exists p1 p2,
    script (inr sample_csv) sample_inputs = Rendered p1
    /\ script (inr sample_csv) no_region_inputs = Rendered p2
    /\ total_cases_metric p1 = "34"
    /\ total_cases_metric p1 = total_cases_metric p2
    /\ total_deaths_metric p1 = total_deaths_metric p2.
Proof.
  eexists. eexists.
  assert (H1 : script (inr sample_csv) sample_inputs
               = Rendered (match script (inr sample_csv) sample_inputs with
                           | Rendered p => p
                           | _ => {| total_cases_metric := ""; total_deaths_metric := "";
                                     sidebar := []; main_page := []; data_table := [] |}
                           end)) by (vm_compute; reflexivity).
  assert (H2 : script (inr sample_csv) no_region_inputs
               = Rendered (match script (inr sample_csv) no_region_inputs with
                           | Rendered p => p
                           | _ => {| total_cases_metric := ""; total_deaths_metric := "";
                                     sidebar := []; main_page := []; data_table := [] |}
                           end)) by (vm_compute; reflexivity).
  split; [exact H1|]. split; [exact H2|].
  destruct (C9_totals_ignore_selection sample_csv sample_inputs no_region_inputs _ _ H1 H2)
    as (Hc & _ & Hcc & Hdd).
  split; [|split; assumption].
  rewrite Hc. vm_compute. reflexivity.
Defined.

(** The data of every chart on the main page is [yearly_grouped] of
    [filtered_df]. *)
Lemma chart_data (df : list Row) (i : Inputs) (fig : Figure) :
  In (plotly_chart fig) (main_page_content df i) ->
  data_frame fig = yearly_grouped (filtered_df df i).
Proof.
  unfold main_page_content.
  destruct (truthy (selected_regions i) && truthy (selected_years i))%bool.
  - destruct (String.eqb (data_view_option i) "-- Select --").
    + intros [H|[]]. discriminate H.
    + intros H. apply in_app_or in H.
      destruct H as [H|H];
        destruct (Py.str_in (data_view_option i) _); simpl in H;
        repeat (destruct H as [H|H]; try discriminate H);
        try contradiction; inversion H; reflexivity.
  - intros [H|[]]. discriminate H.
Qed.

(** C7: in every chart the main page shows, the Dengue_Cases of the groups
    add up to the Dengue_Cases of the filtered rows, and the Dengue_Deaths
    likewise: grouping by (Year, Region) neither loses nor repeats a
    value. *)
Theorem C7_grouped_sums_match (df : list Row) (i : Inputs) (fig : Figure) :
  In (plotly_chart fig) (main_page_content df i) ->
  Pandas.sum (map Grouped.Dengue_Cases (data_frame fig))
  = Pandas.sum (map (fun r => Dengue_Cases (columns r)) (filtered_df df i))
  /\
  Pandas.sum (map Grouped.Dengue_Deaths (data_frame fig))
  = Pandas.sum (map (fun r => Dengue_Deaths (columns r)) (filtered_df df i)).
Proof.
  intros Hin. rewrite (chart_data df i fig Hin). apply yearly_grouped_sums.
Qed.

Lemma C7_witness :
  let fig := fig_cases [ {| Grouped.Year := 2016; Grouped.Region := "A";
                            Grouped.Dengue_Cases := 28; Grouped.Dengue_Deaths := 3 |};
                         {| Grouped.Year := 2016; Grouped.Region := "B";
                            Grouped.Dengue_Cases := 1; Grouped.Dengue_Deaths := 1 |} ] in
  In (plotly_chart fig) (main_page_content sample_df sample_inputs)
  /\ Pandas.sum (map Grouped.Dengue_Cases (data_frame fig))
     = Pandas.sum (map (fun r => Dengue_Cases (columns r))
                       (filtered_df sample_df sample_inputs))
  /\ Pandas.sum (map Grouped.Dengue_Deaths (data_frame fig))
     = Pandas.sum (map (fun r => Dengue_Deaths (columns r))
                       (filtered_df sample_df sample_inputs)).
Proof.
  intros fig.
  assert (Hin : In (plotly_chart fig) (main_page_content sample_df sample_inputs)).
  { vm_compute. right. left. reflexivity. }
  split; [exact Hin|].
  exact (C7_grouped_sums_match sample_df sample_inputs fig Hin).
Defined.

(** Witness of C2: in the sample table the two May 2016 rows of region A,
    labels 1 and 4, stand at places 1 and 2. *)
Lemma C2_witness :
  nth_error (sorted_df sample_df) 1 = Some (1%nat, obs "A" 2016 "May" 10 1)
  /\ nth_error (sorted_df sample_df) 2 = Some (4%nat, obs "A" 2016 "May" 11 2)
  /\ (1 < 4)%nat.
Proof.
  assert (H1 : nth_error (sorted_df sample_df) 1 = Some (1%nat, obs "A" 2016 "May" 10 1))
    by (vm_compute; reflexivity).
  assert (H2 : nth_error (sorted_df sample_df) 2 = Some (4%nat, obs "A" 2016 "May" 11 2))
    by (vm_compute; reflexivity).
  split; [exact H1|]. split; [exact H2|].
  apply (C2_sorted_df_stable sample_df 1 2 1 4
           (obs "A" 2016 "May" 10 1) (obs "A" 2016 "May" 11 2));
    [lia | exact H1 | exact H2 |].
  vm_compute. reflexivity.
Defined.

(** The handler runs before the main page is built: after a successful
    [Add Data] the main page of the same pass is computed over the dataset
    with the new row at its end, and it is the main page of the dataset
    before the append only if the new row does not pass the filters. *)
Lemma add_data_precedes_main_page
    (csv : list Observation) (i : Inputs) (df' : list Row) (msg : string) :
  add_data_clicked i = true ->
  add_data (map with_Month_Num csv) i = Some (df', [success msg]) ->
  exists p r,
    script (inr csv) i = Rendered p
    /\ df' = (map with_Month_Num csv ++ [r])%list
    /\ main_page p = main_page_content (map with_Month_Num csv ++ [r]) i
    /\ (passes_filters i r = false ->
        main_page p = main_page_content (map with_Month_Num csv) i).
Proof.
  intros Hclick Hadd.
  destruct (add_data_success_inv _ _ _ _ Hadd) as (year & Hint & ->).
  eexists. exists (with_Month_Num (new_data i year)).
  split; [unfold script; rewrite Hclick, Hadd; reflexivity|].
  split; [reflexivity|]. cbn [main_page]. split; [reflexivity|].
  intros Hno. apply main_page_content_ext.
  rewrite filtered_df_concat, Hno. apply app_nil_r.
Qed.

(** C1 does not hold of the script.  On the sample file, with regions A
    and B and year 2016 selected and mode "Both", a click on Add Data with
    (A, 2016, May, 120, 3) is answered by "Please update filters to view",
    yet the cases chart of that very pass already shows 148 cases for
    (2016, A) where the dataset before the append gives 28.  The next
    pass, with the same filters and no click, reads the file again: its
    main page is the one of the dataset before the append and its table
    has the five rows of the file, the added row being gone. *)
Theorem C1_click_pass_shows_new_row :
  exists p q,
    script (inr sample_csv) sample_inputs = Rendered p
    /\ sidebar p = [success added_msg]
    /\ In (plotly_chart
             (fig_cases
                [ {| Grouped.Year := 2016; Grouped.Region := "A";
                     Grouped.Dengue_Cases := 148; Grouped.Dengue_Deaths := 6 |};
                  {| Grouped.Year := 2016; Grouped.Region := "B";
                     Grouped.Dengue_Cases := 1; Grouped.Dengue_Deaths := 1 |} ]))
          (main_page p)
    /\ yearly_grouped (filtered_df sample_df sample_inputs)
       = [ {| Grouped.Year := 2016; Grouped.Region := "A";
              Grouped.Dengue_Cases := 28; Grouped.Dengue_Deaths := 3 |};
           {| Grouped.Year := 2016; Grouped.Region := "B";
              Grouped.Dengue_Cases := 1; Grouped.Dengue_Deaths := 1 |} ]
    /\ main_page p <> main_page_content sample_df sample_inputs
    /\ script (inr sample_csv) next_pass_inputs = Rendered q
    /\ main_page q = main_page_content sample_df sample_inputs
    /\ List.length (data_table q) = List.length sample_csv.
Proof.
  eexists. eexists. split; [vm_compute; reflexivity|].
  split; [reflexivity|]. split; [vm_compute; right; left; reflexivity|].
  split; [vm_compute; reflexivity|].
  split; [vm_compute; intros H; discriminate H|].
  split; [vm_compute; reflexivity|].
  split; vm_compute; reflexivity.
Qed.

(** * Further properties of the script *)

(** ** Order of the sorter's output *)

Section SorterOrder.

Context {A : Type} (leb : A -> A -> bool).
Hypothesis leb_total : forall a b, leb a b = true \/ leb b a = true.
Hypothesis leb_trans :
  forall a b c, leb a b = true -> leb b c = true -> leb a c = true.

Lemma insert_ascending (a : A) (l : list A) :
  ascending leb l -> ascending leb (Py.insert leb a l).
Proof.
  unfold ascending. induction 1 as [|b l Hs IH Hall]; simpl.
  - repeat constructor.
  - destruct (leb a b) eqn:Hab.
    + constructor; [now constructor|].
      constructor; [assumption|].
      rewrite Forall_forall in *. intros c Hc. eapply leb_trans; eauto.
    + constructor; [assumption|].
      apply (Permutation_Forall (Permutation_sym (insert_perm leb a l))).
      constructor; [|assumption].
      destruct (leb_total a b) as [H|H]; [congruence | assumption].
Qed.

Lemma sorted_ascending (l : list A) : ascending leb (Py.sorted leb l).
Proof.
  induction l as [|a l IH]; simpl; [constructor | now apply insert_ascending].
Qed.

End SorterOrder.

Lemma ascending_order {A : Type} (leb : A -> A -> bool)
    (l1 l2 l3 : list A) (a b : A) :
  ascending leb (l1 ++ a :: l2 ++ b :: l3) -> leb a b = true.
Proof.
  unfold ascending. induction l1 as [|c l1 IH]; simpl; intros Hs;
    apply StronglySorted_inv in Hs as [Hs Hall].
  - rewrite Forall_forall in Hall. apply Hall, in_elt.
  - now apply IH.
Qed.

Lemma nan_last_leb_total (a b : option Z) :
  Pandas.nan_last_leb a b = true \/ Pandas.nan_last_leb b a = true.
Proof.
  destruct a as [x|], b as [y|]; simpl; auto.
  destruct (Z.leb_spec x y), (Z.leb_spec y x); auto; lia.
Qed.

Lemma nan_last_leb_trans (a b c : option Z) :
  Pandas.nan_last_leb a b = true -> Pandas.nan_last_leb b c = true ->
  Pandas.nan_last_leb a c = true.
Proof.
  destruct a as [x|], b as [y|], c as [z|]; simpl; auto; try discriminate.
  rewrite !Z.leb_le. lia.
Qed.

Lemma by_Year_Month_Num_spec (r1 r2 : Row) :
  by_Year_Month_Num r1 r2 = true <->
  Year (columns r1) < Year (columns r2)
  \/ (Year (columns r1) = Year (columns r2)
      /\ Pandas.nan_last_leb (Month_Num r1) (Month_Num r2) = true).
Proof.
  unfold by_Year_Month_Num.
  rewrite orb_true_iff, andb_true_iff, Z.ltb_lt, Z.eqb_eq. reflexivity.
Qed.

Lemma by_Year_Month_Num_total (r1 r2 : Row) :
  by_Year_Month_Num r1 r2 = true \/ by_Year_Month_Num r2 r1 = true.
Proof.
  rewrite !by_Year_Month_Num_spec.
  destruct (Z.lt_trichotomy (Year (columns r1)) (Year (columns r2))) as [H|[H|H]];
    auto.
  destruct (nan_last_leb_total (Month_Num r1) (Month_Num r2)); auto.
Qed.

Lemma by_Year_Month_Num_trans (r1 r2 r3 : Row) :
  by_Year_Month_Num r1 r2 = true -> by_Year_Month_Num r2 r3 = true ->
  by_Year_Month_Num r1 r3 = true.
Proof.
  rewrite !by_Year_Month_Num_spec.
  intros [H12|[E12 M12]] [H23|[E23 M23]]; try (left; lia).
  right. split; [lia|]. eapply nan_last_leb_trans; eauto.
Qed.

Lemma sort_values_ascending (df : list Row) :
  ascending (fun x y => by_Year_Month_Num (snd x) (snd y))
            (Pandas.sort_values by_Year_Month_Num df).
Proof.
  unfold Pandas.sort_values. apply sorted_ascending.
  - intros a b. apply by_Year_Month_Num_total.
  - intros a b c. apply by_Year_Month_Num_trans.
Qed.

(** X1: the table is in ascending order of Year, and within a year in
    ascending order of Month_Num with the rows whose Month_Num is NaN
    last.  For two places [i < j] of the table, the rows are those of the
    dataset under the labels shown, and the first does not exceed the
    second. *)
Theorem X1_sorted_df_ascending
    (df : list Row) (i j a b : nat) (oa ob : Observation) :
  (i < j)%nat ->
  nth_error (sorted_df df) i = Some (a, oa) ->
  nth_error (sorted_df df) j = Some (b, ob) ->
  exists ra rb,
    nth_error df a = Some ra /\ nth_error df b = Some rb
    /\ oa = columns ra /\ ob = columns rb
    /\ (Year oa < Year ob
        \/ (Year oa = Year ob
            /\ Pandas.nan_last_leb (Month_Num ra) (Month_Num rb) = true)).
Proof.
  unfold sorted_df. intros Hij Hi Hj.
  rewrite nth_error_map in Hi, Hj.
  destruct (nth_error (Pandas.sort_values by_Year_Month_Num df) i)
    as [[a' ra]|] eqn:Ei; [|discriminate].
  destruct (nth_error (Pandas.sort_values by_Year_Month_Num df) j)
    as [[b' rb]|] eqn:Ej; [|discriminate].
  simpl in Hi, Hj. inversion Hi; subst a' oa. inversion Hj; subst b' ob.
  pose proof (sort_values_perm df) as Hp.
  exists ra, rb.
  split; [apply with_index_lookup, (Permutation_in _ Hp), (nth_error_In _ _ Ei)|].
  split; [apply with_index_lookup, (Permutation_in _ Hp), (nth_error_In _ _ Ej)|].
  split; [reflexivity|]. split; [reflexivity|].
  destruct (split_two _ _ _ _ _ Hij Ei Ej) as (l1 & l2 & l3 & Hsplit).
  pose proof (sort_values_ascending df) as Hasc. rewrite Hsplit in Hasc.
  apply ascending_order in Hasc. simpl in Hasc.
  now apply by_Year_Month_Num_spec.
Qed.

Lemma X1_witness :
  nth_error (sorted_df sample_df) 2 = Some (4%nat, obs "A" 2016 "May" 11 2)
  /\ nth_error (sorted_df sample_df) 3 = Some (3%nat, obs "B" 2016 "Smarch" 1 1)
  /\ exists ra rb,
    nth_error sample_df 4 = Some ra /\ nth_error sample_df 3 = Some rb
    /\ obs "A" 2016 "May" 11 2 = columns ra
    /\ obs "B" 2016 "Smarch" 1 1 = columns rb
    /\ (Year (obs "A" 2016 "May" 11 2) < Year (obs "B" 2016 "Smarch" 1 1)
        \/ (Year (obs "A" 2016 "May" 11 2) = Year (obs "B" 2016 "Smarch" 1 1)
            /\ Pandas.nan_last_leb (Month_Num ra) (Month_Num rb) = true)).
Proof.
  assert (H1 : nth_error (sorted_df sample_df) 2
               = Some (4%nat, obs "A" 2016 "May" 11 2)) by (vm_compute; reflexivity).
  assert (H2 : nth_error (sorted_df sample_df) 3
               = Some (3%nat, obs "B" 2016 "Smarch" 1 1)) by (vm_compute; reflexivity).
  split; [exact H1|]. split; [exact H2|].
  apply (X1_sorted_df_ascending sample_df 2 3 4 3 _ _); [lia | exact H1 | exact H2].
Defined.

(** ** Orders on texts and on group keys *)

Lemma string_compare_not_gt_trans (s1 s2 s3 : string) :
  String.compare s1 s2 <> Gt -> String.compare s2 s3 <> Gt ->
  String.compare s1 s3 <> Gt.
Proof.
  revert s2 s3. induction s1 as [|c1 s1 IH]; intros [|c2 s2] [|c3 s3]; simpl;
    try congruence.
  unfold Ascii.compare.
  destruct (N.compare_spec (N_of_ascii c1) (N_of_ascii c2)) as [E12|L12|G12];
    destruct (N.compare_spec (N_of_ascii c2) (N_of_ascii c3)) as [E23|L23|G23];
    destruct (N.compare_spec (N_of_ascii c1) (N_of_ascii c3)) as [E13|L13|G13];
    try congruence; try lia.
  apply IH.
Qed.

Lemma string_leb_not_gt (s1 s2 : string) :
  String.leb s1 s2 = true <-> String.compare s1 s2 <> Gt.
Proof.
  unfold String.leb. destruct (String.compare s1 s2); split; congruence.
Qed.

Lemma string_leb_trans (s1 s2 s3 : string) :
  String.leb s1 s2 = true -> String.leb s2 s3 = true -> String.leb s1 s3 = true.
Proof. rewrite !string_leb_not_gt. apply string_compare_not_gt_trans. Qed.

Lemma string_leb_strict (s1 s2 : string) :
  String.leb s1 s2 = true -> s1 <> s2 -> String.ltb s1 s2 = true.
Proof.
  unfold String.leb, String.ltb. intros Hle Hne.
  destruct (String.compare s1 s2) eqn:E; try congruence.
  apply String.compare_eq_iff in E. contradiction.
Qed.

Lemma key_leb_spec (k1 k2 : Z * string) :
  key_leb k1 k2 = true <->
  fst k1 < fst k2 \/ (fst k1 = fst k2 /\ String.leb (snd k1) (snd k2) = true).
Proof.
  unfold key_leb.
  rewrite orb_true_iff, andb_true_iff, Z.ltb_lt, Z.eqb_eq. reflexivity.
Qed.

Lemma key_leb_total (k1 k2 : Z * string) :
  key_leb k1 k2 = true \/ key_leb k2 k1 = true.
Proof.
  rewrite !key_leb_spec.
  destruct (Z.lt_trichotomy (fst k1) (fst k2)) as [H|[H|H]]; auto.
  destruct (String.leb_total (snd k1) (snd k2)); auto.
Qed.

Lemma key_leb_trans (k1 k2 k3 : Z * string) :
  key_leb k1 k2 = true -> key_leb k2 k3 = true -> key_leb k1 k3 = true.
Proof.
  rewrite !key_leb_spec.
  intros [H12|[E12 M12]] [H23|[E23 M23]]; try (left; lia).
  right. split; [lia|]. eapply string_leb_trans; eauto.
Qed.

Lemma Z_leb_total (a b : Z) : (a <=? b) = true \/ (b <=? a) = true.
Proof. rewrite !Z.leb_le. lia. Qed.

Lemma Z_leb_trans (a b c : Z) :
  (a <=? b) = true -> (b <=? c) = true -> (a <=? c) = true.
Proof. rewrite !Z.leb_le. lia. Qed.

(** ** Distinct values in ascending order *)

Section SortedUnique.

Context {K : Type} (eqb leb : K -> K -> bool).
Hypothesis eqb_spec : forall k1 k2, eqb k1 k2 = true <-> k1 = k2.
Hypothesis leb_total : forall a b, leb a b = true \/ leb b a = true.
Hypothesis leb_trans :
  forall a b c, leb a b = true -> leb b c = true -> leb a c = true.

Lemma sorted_unique_NoDup (col : list K) :
  NoDup (Py.sorted leb (Pandas.unique eqb col)).
Proof.
  apply (Permutation_NoDup (Permutation_sym (sorted_perm leb _))).
  now apply unique_NoDup.
Qed.

Lemma sorted_unique_In (col : list K) (k : K) :
  In k (Py.sorted leb (Pandas.unique eqb col)) <-> In k col.
Proof.
  rewrite <- (unique_In eqb eqb_spec col k).
  split; apply Permutation_in;
    [apply sorted_perm | apply Permutation_sym, sorted_perm].
Qed.

Lemma sorted_unique_ascending (col : list K) :
  ascending leb (Py.sorted leb (Pandas.unique eqb col)).
Proof. now apply sorted_ascending. Qed.

End SortedUnique.

Lemma NoDup_order {A : Type} (l1 l2 l3 : list A) (a b : A) :
  NoDup (l1 ++ a :: l2 ++ b :: l3) -> a <> b.
Proof.
  intros Hnd E. subst b. apply NoDup_remove_2 in Hnd. apply Hnd.
  apply in_or_app. right. apply in_or_app. right. now left.
Qed.

(** X2: the options of the Region filter are the regions present in the
    dataset, each once, in ascending order of text; the options of the
    Year filter are the years present, each once, in ascending order. *)
Theorem X2_filter_options (df : list Row) :
  (NoDup (region_options df)
   /\ ascending String.leb (region_options df)
   /\ forall s, In s (region_options df)
                <-> exists r, In r df /\ Region (columns r) = s)
  /\
  (NoDup (year_options df)
   /\ ascending Z.leb (year_options df)
   /\ forall y, In y (year_options df)
                <-> exists r, In r df /\ Year (columns r) = y).
Proof.
  unfold region_options, year_options. split; split.
  - apply sorted_unique_NoDup. apply String.eqb_eq.
  - split.
    + apply sorted_unique_ascending;
        [apply String.leb_total | apply string_leb_trans].
    + intros s. rewrite (sorted_unique_In _ _ String.eqb_eq), in_map_iff.
      split; intros (r & H1 & H2); exists r; auto.
  - apply sorted_unique_NoDup. apply Z.eqb_eq.
  - split.
    + apply sorted_unique_ascending; [apply Z_leb_total | apply Z_leb_trans].
    + intros y. rewrite (sorted_unique_In _ _ Z.eqb_eq), in_map_iff.
      split; intros (r & H1 & H2); exists r; auto.
Qed.

(** ** The aggregated view *)

Lemma yearly_grouped_keys (rows : list Row) :
  map grouped_key (yearly_grouped rows)
  = Py.sorted key_leb (Pandas.unique key_eqb (map group_key rows)).
Proof.
  unfold yearly_grouped, Pandas.groupby. rewrite !map_map.
  unfold grouped_key. simpl.
  rewrite <- (map_id (Py.sorted _ _)) at 2. apply map_ext.
  now intros [y r].
Qed.

Lemma yearly_grouped_NoDup (rows : list Row) :
  NoDup (map grouped_key (yearly_grouped rows)).
Proof.
  rewrite yearly_grouped_keys. apply sorted_unique_NoDup, key_eqb_spec.
Qed.

(** X3: [yearly_grouped] has exactly one row for every (Year, Region)
    that occurs among the filtered rows, and no other row. *)
Theorem X3_one_group_per_key (rows : list Row) :
  NoDup (map grouped_key (yearly_grouped rows))
  /\ forall k, In k (map grouped_key (yearly_grouped rows))
               <-> exists r, In r rows /\ group_key r = k.
Proof.
  split; [apply yearly_grouped_NoDup|].
  rewrite yearly_grouped_keys.
  - intros k. rewrite (sorted_unique_In _ _ key_eqb_spec), in_map_iff.
    split; intros (r & H1 & H2); exists r; auto.
Qed.

(** X4: the rows of [yearly_grouped] stand in strictly ascending order of
    Year, and within a year in strictly ascending order of Region. *)
Theorem X4_groups_ascending (rows : list Row) (i j : nat) (g1 g2 : Grouped.row) :
  (i < j)%nat ->
  nth_error (yearly_grouped rows) i = Some g1 ->
  nth_error (yearly_grouped rows) j = Some g2 ->
  Grouped.Year g1 < Grouped.Year g2
  \/ (Grouped.Year g1 = Grouped.Year g2
      /\ String.ltb (Grouped.Region g1) (Grouped.Region g2) = true).
Proof.
  intros Hij H1 H2.
  apply (map_nth_error grouped_key) in H1, H2.
  destruct (split_two _ _ _ _ _ Hij H1 H2) as (l1 & l2 & l3 & Hsplit).
  pose proof (yearly_grouped_NoDup rows) as Hnd.
  rewrite Hsplit in Hnd. apply NoDup_order in Hnd.
  pose proof (sorted_unique_ascending key_eqb key_leb key_leb_total key_leb_trans
                (map group_key rows)) as Hasc.
  rewrite <- yearly_grouped_keys, Hsplit in Hasc.
  apply ascending_order, key_leb_spec in Hasc.
  unfold grouped_key in *. simpl in Hasc.
  destruct Hasc as [Hlt|[Heq Hle]]; [now left | right].
  split; [assumption|]. apply string_leb_strict; [assumption|].
  intros E. apply Hnd. now rewrite Heq, E.
Qed.

Lemma X4_witness :
  nth_error (yearly_grouped sample_df) 0
  = Some {| Grouped.Year := 2016; Grouped.Region := "A";
            Grouped.Dengue_Cases := 28; Grouped.Dengue_Deaths := 3 |}
  /\ nth_error (yearly_grouped sample_df) 1
     = Some {| Grouped.Year := 2016; Grouped.Region := "B";
               Grouped.Dengue_Cases := 1; Grouped.Dengue_Deaths := 1 |}
  /\ (2016 < 2016 \/ (2016 = 2016 /\ String.ltb "A" "B" = true)).
Proof.
  assert (H1 : nth_error (yearly_grouped sample_df) 0
               = Some {| Grouped.Year := 2016; Grouped.Region := "A";
                         Grouped.Dengue_Cases := 28; Grouped.Dengue_Deaths := 3 |})
    by (vm_compute; reflexivity).
  assert (H2 : nth_error (yearly_grouped sample_df) 1
               = Some {| Grouped.Year := 2016; Grouped.Region := "B";
                         Grouped.Dengue_Cases := 1; Grouped.Dengue_Deaths := 1 |})
    by (vm_compute; reflexivity).
  split; [exact H1|]. split; [exact H2|].
  apply (X4_groups_ascending sample_df 0 1 _ _ ltac:(lia) H1 H2).
Defined.

(** X5: every row of [yearly_grouped] stands for at least one filtered
    row, and its Dengue_Cases and Dengue_Deaths are the sums of those
    columns over the filtered rows of its year and region. *)
Theorem X5_group_sums (rows : list Row) (g : Grouped.row) :
  In g (yearly_grouped rows) ->
  let members :=
    filter (fun r => ((Grouped.Year g =? Year (columns r))
                      && String.eqb (Grouped.Region g) (Region (columns r)))%bool)
           rows in
  members <> []
  /\ Grouped.Dengue_Cases g
     = Pandas.sum (map (fun r => Dengue_Cases (columns r)) members)
  /\ Grouped.Dengue_Deaths g
     = Pandas.sum (map (fun r => Dengue_Deaths (columns r)) members).
Proof.
  unfold yearly_grouped, Pandas.groupby. rewrite map_map. intros Hin.
  apply in_map_iff in Hin as ([y s] & <- & Hk). simpl.
  split; [|split; reflexivity].
  apply (proj1 (sorted_unique_In key_eqb key_leb key_eqb_spec _ _)) in Hk.
  apply in_map_iff in Hk as (r & Hr & Hin).
  intros Hnil.
  assert (Hmem : In r (filter (fun r => ((y =? Year (columns r))
                                         && String.eqb s (Region (columns r)))%bool)
                              rows)).
  { apply filter_In. split; [assumption|].
    unfold group_key in Hr. inversion Hr; subst.
    now rewrite Z.eqb_refl, String.eqb_refl. }
  rewrite Hnil in Hmem. destruct Hmem.
Qed.

Lemma X5_witness :
  let g := {| Grouped.Year := 2016; Grouped.Region := "A";
              Grouped.Dengue_Cases := 28; Grouped.Dengue_Deaths := 3 |} in
  In g (yearly_grouped sample_df)
  /\ Grouped.Dengue_Cases g
     = Pandas.sum (map (fun r => Dengue_Cases (columns r))
                       (filter (fun r => ((Grouped.Year g =? Year (columns r))
                                          && String.eqb (Grouped.Region g)
                                                        (Region (columns r)))%bool)
                               sample_df)).
Proof.
  intros g.
  assert (Hin : In g (yearly_grouped sample_df)) by (vm_compute; left; reflexivity).
  split; [exact Hin|].
  exact (proj1 (proj2 (X5_group_sums sample_df g Hin))).
Defined.

Lemma filter_nil_iff {A : Type} (f : A -> bool) (l : list A) :
  filter f l = [] <-> forall a, In a l -> f a = false.
Proof.
  induction l as [|a l IH]; simpl.
  - split; [intros _ b [] | reflexivity].
  - destruct (f a) eqn:Fa.
    + split; [discriminate|]. intros H. specialize (H a (or_introl eq_refl)).
      congruence.
    + rewrite IH. split.
      * intros H b [<-|Hb]; auto.
      * intros H b Hb. apply H. now right.
Qed.

Lemma yearly_grouped_nil (rows : list Row) :
  yearly_grouped rows = [] <-> rows = [].
Proof.
  split.
  - intros H. apply (f_equal (map grouped_key)) in H.
    rewrite yearly_grouped_keys in H.
    apply (f_equal (@List.length _)) in H.
    rewrite (Permutation_length (sorted_perm key_leb _)) in H.
    destruct rows as [|r rows]; [reflexivity | discriminate H].
  - intros ->. reflexivity.
Qed.

(** X6: the data of the charts is empty exactly when no row of the
    dataset passes the filters; no selection makes the aggregation fail. *)
Theorem X6_no_groups_iff_no_rows (df : list Row) (i : Inputs) :
  yearly_grouped (filtered_df df i) = []
  <-> forall r, In r df -> passes_filters i r = false.
Proof.
  rewrite yearly_grouped_nil, filtered_df_mask. apply filter_nil_iff.
Qed.

Lemma truthy_false {A : Type} (l : list A) : truthy l = false <-> l = [].
Proof. destruct l; simpl; split; congruence. Qed.

Lemma truthy_true {A : Type} (l : list A) : truthy l = true <-> l <> [].
Proof. destruct l; simpl; split; congruence. Qed.

(** X7: a row is in [filtered_df] exactly when it is a row of the dataset
    whose Region is among the selected regions, whose Year is among the
    selected years and, if any month is selected, whose Month is among the
    selected months. *)
Theorem X7_filtered_df_rows (df : list Row) (i : Inputs) (r : Row) :
  In r (filtered_df df i)
  <-> In r df
      /\ In (Region (columns r)) (selected_regions i)
      /\ In (Year (columns r)) (selected_years i)
      /\ (selected_months i = [] \/ In (Month (columns r)) (selected_months i)).
Proof.
  rewrite filtered_df_mask, filter_In. unfold passes_filters.
  rewrite !andb_true_iff, str_in_In, int_in_In.
  destruct (truthy (selected_months i)) eqn:T.
  - rewrite str_in_In. apply truthy_true in T. tauto.
  - apply truthy_false in T. tauto.
Qed.

(** X8: which charts the main page holds.  A chart is shown only when a
    region and a year are selected; it is the cases chart, in the modes
    "Dengue Cases" and "Both", or the deaths chart, in the modes
    "Dengue Deaths" and "Both", and both are drawn from the same
    [yearly_grouped] of [filtered_df]. *)
Theorem X8_charts_by_mode (df : list Row) (i : Inputs) (fig : Figure) :
  In (plotly_chart fig) (main_page_content df i)
  <-> selected_regions i <> [] /\ selected_years i <> []
      /\ ((fig = fig_cases (yearly_grouped (filtered_df df i))
           /\ In (data_view_option i) ["Dengue Cases"; "Both"])
          \/ (fig = fig_deaths (yearly_grouped (filtered_df df i))
              /\ In (data_view_option i) ["Dengue Deaths"; "Both"])).
Proof.
  unfold main_page_content.
  rewrite <- !(str_in_In (data_view_option i)), <- !truthy_true.
  set (bc := Py.str_in (data_view_option i) ["Dengue Cases"; "Both"]).
  set (bd := Py.str_in (data_view_option i) ["Dengue Deaths"; "Both"]).
  assert (Hsel : data_view_option i = "-- Select --" -> bc = false /\ bd = false)
    by (intros E; unfold bc, bd; rewrite E; split; reflexivity).
  clearbody bc bd.
  destruct (truthy (selected_regions i)), (truthy (selected_years i));
    cbn [andb];
    try (split; [intros [H|[]]; discriminate H | intros (H1 & H2 & _); congruence]).
  destruct (String.eqb (data_view_option i) "-- Select --") eqn:Esel.
  - apply String.eqb_eq in Esel. destruct (Hsel Esel) as [-> ->].
    split; [intros [H|[]]; discriminate H|].
    intros (_ & _ & [[_ H]|[_ H]]); discriminate H.
  - clear Hsel. destruct bc, bd; cbn [app].
    + split.
      * intros [H|[H|[H|[H|[]]]]]; try discriminate H; inversion H; auto 6.
      * intros (_ & _ & [[-> _]|[-> _]]); simpl; auto 6.
    + split.
      * intros [H|[H|[]]]; try discriminate H; inversion H; auto 6.
      * intros (_ & _ & [[-> _]|[_ H]]); [simpl; auto | discriminate H].
    + split.
      * intros [H|[H|[]]]; try discriminate H; inversion H; auto 6.
      * intros (_ & _ & [[_ H]|[-> _]]); [discriminate H | simpl; auto].
    + split.
      * intros [].
      * intros (_ & _ & [[_ H]|[_ H]]); discriminate H.
Qed.

(** ** Passes of the script *)

Lemma with_index_In {A : Type} (df : list A) (k : nat) (a : A) :
  nth_error df k = Some a -> In (k, a) (Pandas.with_index df).
Proof.
  unfold Pandas.with_index.
  assert (G : forall s, nth_error df k = Some a ->
                        In ((s + k)%nat, a) (combine (seq s (List.length df)) df)).
  { revert k. induction df as [|b df IH]; intros k s Hk.
    - destruct k; discriminate Hk.
    - destruct k as [|k]; simpl in *.
      + inversion Hk. left. now rewrite Nat.add_0_r.
      + right. rewrite <- Nat.add_succ_comm. now apply IH. }
  intros Hk. exact (G 0%nat Hk).
Qed.

Lemma sorted_df_In (df : list Row) (k : nat) (r : Row) :
  nth_error df k = Some r -> In (k, columns r) (sorted_df df).
Proof.
  intros Hk. unfold sorted_df.
  apply (in_map (fun lr => (fst lr, drop_Month_Num (snd lr))) _ (k, r)).
  apply (Permutation_in _ (Permutation_sym (sort_values_perm df))).
  now apply with_index_In.
Qed.

Lemma sorted_df_length (df : list Row) :
  List.length (sorted_df df) = List.length df.
Proof.
  unfold sorted_df.
  rewrite length_map, (Permutation_length (sort_values_perm df)).
  rewrite <- (with_index_rows df) at 2. now rewrite length_map.
Qed.



(** X11: in a pass with a successful Add Data the two totals are still
    the sums over the rows read from the file, without the new row, while
    the table at the bottom has one row more than the file and shows the
    new row under the next index label. *)
Theorem X11_totals_exclude_new_row (csv : list Observation) (i : Inputs) :
  add_data_clicked i = true ->
  valid_form i ->
  exists p year,
    script (inr csv) i = Rendered p
    /\ Py.int (new_year i) = Some year
    /\ total_cases_metric p = Py.format_commas (Pandas.sum (map Dengue_Cases csv))
    /\ total_deaths_metric p = Py.format_commas (Pandas.sum (map Dengue_Deaths csv))
    /\ List.length (data_table p) = S (List.length csv)
    /\ In (List.length csv, new_data i year) (data_table p).
Proof.
  intros Hclick (Hr & (Hyin & Hy) & (Hmin & Hm)).
  destruct (year_option_int _ Hyin Hy) as (year & Hint & _).
  pose proof (add_data_accepts (map with_Month_Num csv) i year Hr Hm Hy Hint) as Hadd.
  eexists. exists year. unfold script. rewrite Hclick, Hadd.
  split; [reflexivity|]. split; [assumption|].
  cbn [total_cases_metric total_deaths_metric data_table].
  unfold total_cases, total_deaths. rewrite !map_map. cbn [with_Month_Num columns].
  split; [reflexivity|]. split; [reflexivity|]. split.
  - rewrite sorted_df_length, length_app, length_map. simpl. lia.
  - apply (sorted_df_In _ _ (with_Month_Num (new_data i year))).
    rewrite nth_error_app2 by (rewrite length_map; lia).
    rewrite length_map, Nat.sub_diag. reflexivity.
Qed.

Lemma X11_witness :
  add_data_clicked sample_inputs = true
  /\ exists p year,
    script (inr sample_csv) sample_inputs = Rendered p
    /\ Py.int (new_year sample_inputs) = Some year
    /\ total_cases_metric p
       = Py.format_commas (Pandas.sum (map Dengue_Cases sample_csv))
    /\ total_deaths_metric p
       = Py.format_commas (Pandas.sum (map Dengue_Deaths sample_csv))
    /\ List.length (data_table p) = S (List.length sample_csv)
    /\ In (List.length sample_csv, new_data sample_inputs year) (data_table p).
Proof.
  split; [reflexivity|].
  apply (X11_totals_exclude_new_row sample_csv sample_inputs); [reflexivity|].
  unfold valid_form. simpl. repeat split; try discriminate.
  - vm_compute. tauto.
  - vm_compute. tauto.
Defined.

(** X12: every rendered page shows each line of the file in the table
    under the index label of its position in the file, and the table has
    as many rows as the file or one more. *)
Theorem X12_table_shows_file_rows
    (csv : list Observation) (i : Inputs) (p : Page) (k : nat) (o : Observation) :
  script (inr csv) i = Rendered p ->
  nth_error csv k = Some o ->
  In (k, o) (data_table p)
  /\ (List.length csv <= List.length (data_table p) <= S (List.length csv))%nat.
Proof.
  intros Hs Hk.
  assert (Hrow : nth_error (map with_Month_Num csv) k = Some (with_Month_Num o))
    by (rewrite nth_error_map, Hk; reflexivity).
  unfold script in Hs.
  destruct (add_data_clicked i).
  - destruct (add_data_cases (map with_Month_Num csv) i)
      as [[Hadd Hph]|(Hr & Hm & Hy & [[Hadd Hint]|(year & Hint & Hadd)])];
      rewrite Hadd in Hs; inversion Hs; subst p; cbn [data_table].
    + split; [now apply (sorted_df_In _ _ (with_Month_Num o))|].
      rewrite sorted_df_length, length_map. lia.
    + split.
      * apply (sorted_df_In _ _ (with_Month_Num o)).
        rewrite nth_error_app1; [assumption|].
        apply nth_error_Some. congruence.
      * rewrite sorted_df_length, length_app, length_map. simpl. lia.
  - inversion Hs; subst p; cbn [data_table].
    split; [now apply (sorted_df_In _ _ (with_Month_Num o))|].
    rewrite sorted_df_length, length_map. lia.
Qed.

Lemma X12_witness :
  exists p,
    script (inr sample_csv) no_region_inputs = Rendered p
    /\ nth_error sample_csv 3 = Some (obs "B" 2016 "Smarch" 1 1)
    /\ In (3%nat, obs "B" 2016 "Smarch" 1 1) (data_table p).
Proof.
  eexists.
  assert (Hs : script (inr sample_csv) no_region_inputs
               = Rendered (match script (inr sample_csv) no_region_inputs with
                           | Rendered p => p
                           | _ => {| total_cases_metric := ""; total_deaths_metric := "";
                                     sidebar := []; main_page := []; data_table := [] |}
                           end)) by (vm_compute; reflexivity).
  assert (Hk : nth_error sample_csv 3 = Some (obs "B" 2016 "Smarch" 1 1))
    by reflexivity.
  split; [exact Hs|]. split; [exact Hk|].
  exact (proj1 (X12_table_shows_file_rows sample_csv no_region_inputs _ 3 _ Hs Hk)).
Defined.

(** ** The month table *)

Lemma dict_get_None {V : Type} (d : list (string * V)) (k : string) :
  Py.dict_get d k = None <-> ~ In k (Py.keys d).
Proof.
  induction d as [|[k' v] d IH]; simpl; [tauto|].
  destruct (String.eqb_spec k' k) as [E|N].
  - split; [discriminate | intros H; exfalso; apply H; now left].
  - rewrite IH. tauto.
Qed.

(** X13: [Month_Num] is NaN exactly for the months that are none of the
    twelve names of the table (no error is raised for them), and for the
    name at place [k] of the calendar order it is [k + 1]. *)
Theorem X13_month_num_lookup (o : Observation) :
  (Month_Num (with_Month_Num o) = None <-> ~ In (Month o) month_options)
  /\ forall k, (k < 12)%nat -> Month o = nth k month_options "" ->
               Month_Num (with_Month_Num o) = Some (Z.of_nat k + 1).
Proof.
  unfold with_Month_Num, month_options. cbn [Month_Num]. split.
  - apply dict_get_None.
  - intros k Hk ->.
    do 12 (destruct k as [|k]; [reflexivity|]). lia.
Qed.

(** ** Decimal texts *)

Lemma digit_chars (d : Decimal.uint) :
  Forall (fun c => is_digit c = true)
         (list_ascii_of_string (NilEmpty.string_of_uint d)).
Proof. induction d; simpl; constructor; auto. Qed.

Lemma str_pos_chars (p : positive) :
  Py.str (Z.pos p) = NilEmpty.string_of_uint (Pos.to_uint p).
Proof.
  unfold Py.str. simpl. unfold NilZero.string_of_uint.
  pose proof (Unsigned.to_uint_nonnil p) as Hn.
  destruct (Pos.to_uint p); [contradiction | reflexivity ..].
Qed.

Lemma str_neg_chars (p : positive) :
  Py.str (Z.neg p) = String "-" (NilEmpty.string_of_uint (Pos.to_uint p)).
Proof.
  unfold Py.str. simpl. unfold NilZero.string_of_uint.
  pose proof (Unsigned.to_uint_nonnil p) as Hn.
  destruct (Pos.to_uint p); [contradiction | reflexivity ..].
Qed.

Lemma digit_not_comma (c : ascii) :
  is_digit c = true -> negb (Ascii.eqb c ",") = true.
Proof.
  intros H. destruct (Ascii.eqb_spec c ","%char) as [->|]; [discriminate H | reflexivity].
Qed.

Lemma digit_not_space (c : ascii) : is_digit c = true -> Py.is_space c = false.
Proof.
  unfold is_digit, Py.digit_of, Py.is_space.
  destruct (Nat.leb 48 (nat_of_ascii c)) eqn:L1; [|discriminate].
  destruct (Nat.leb (nat_of_ascii c) 57) eqn:L2; [|discriminate].
  intros _. apply Nat.leb_le in L1, L2.
  destruct (Nat.eqb_spec (nat_of_ascii c) 32); [lia|].
  destruct (Nat.leb_spec (nat_of_ascii c) 13); [lia|].
  destruct (Nat.leb_spec (nat_of_ascii c) 31); [lia|].
  now rewrite !andb_false_r.
Qed.

Lemma digit_not_sign (c : ascii) :
  is_digit c = true -> Ascii.eqb c "-" = false /\ Ascii.eqb c "+" = false.
Proof.
  intros H. split.
  - destruct (Ascii.eqb_spec c "-"%char) as [->|]; [discriminate H | reflexivity].
  - destruct (Ascii.eqb_spec c "+"%char) as [->|]; [discriminate H | reflexivity].
Qed.

Lemma group3_commas_only (k : nat) (l : list ascii) :
  filter (fun c => negb (Ascii.eqb c ",")) (Py.group3 k l)
  = filter (fun c => negb (Ascii.eqb c ",")) l.
Proof.
  revert k. induction l as [|c l IH]; intros k; [reflexivity|].
  destruct k as [|k]; cbn [Py.group3 filter].
  - change (negb (Ascii.eqb "," ",")) with false. cbn iota. now rewrite IH.
  - now rewrite IH.
Qed.

Lemma commas_removed (ds : list ascii) :
  Forall (fun c => is_digit c = true) ds ->
  filter (fun c => negb (Ascii.eqb c ",")) (Py.commas ds) = ds.
Proof.
  intros Hd. unfold Py.commas.
  rewrite filter_rev, group3_commas_only, <- filter_rev, rev_involutive.
  apply forallb_filter_id, forallb_forall. rewrite Forall_forall in Hd.
  intros c Hc. now apply digit_not_comma, Hd.
Qed.

Lemma str_abs_digits (n : Z) :
  Forall (fun c => is_digit c = true) (list_ascii_of_string (Py.str (Z.abs n))).
Proof.
  destruct n as [|p|p]; simpl Z.abs.
  - repeat constructor.
  - rewrite str_pos_chars. apply digit_chars.
  - rewrite str_pos_chars. apply digit_chars.
Qed.

(** X14: the comma grouping of the totals only adds commas: with the
    commas taken out, the text of a total is [str] of the number. *)
Theorem X14_format_commas_digits (n : Z) :
  remove_commas (Py.format_commas n) = Py.str n.
Proof.
  unfold remove_commas, Py.format_commas.
  pose proof (commas_removed _ (str_abs_digits n)) as Hc.
  destruct n as [|p|p]; cbn [Z.ltb Z.compare].
  - rewrite list_ascii_of_string_of_list_ascii, Hc.
    apply string_of_list_ascii_of_string.
  - rewrite list_ascii_of_string_of_list_ascii, Hc.
    apply string_of_list_ascii_of_string.
  - cbn [append list_ascii_of_string filter].
    change (negb (Ascii.eqb "-" ",")) with true. cbn iota.
    rewrite list_ascii_of_string_of_list_ascii, Hc.
    cbn [string_of_list_ascii]. rewrite string_of_list_ascii_of_string.
    simpl Z.abs. now rewrite str_pos_chars, str_neg_chars.
Qed.

(** ** Reading back a printed integer *)

Lemma uint_value_acc (d : Decimal.uint) (p : positive) :
  uint_value (Z.pos p) d = Z.pos (Pos.of_uint_acc d p).
Proof.
  revert p. induction d; intros p; cbn [uint_value Pos.of_uint_acc];
    [reflexivity | ..]; rewrite <- IHd; f_equal; lia.
Qed.

Lemma uint_value_0 (d : Decimal.uint) :
  uint_value 0 d = Z.of_N (Pos.of_uint d).
Proof.
  induction d; cbn [uint_value Pos.of_uint Z.of_N];
    [reflexivity | assumption | ..]; apply uint_value_acc.
Qed.

Lemma digits_after_digit (d : Decimal.uint) (acc : Z) :
  Py.digits acc true (list_ascii_of_string (NilEmpty.string_of_uint d))
  = Some (uint_value acc d).
Proof.
  revert acc. induction d; intros acc; simpl; [reflexivity | ..]; apply IHd.
Qed.

Lemma digits_numeral (d : Decimal.uint) (acc : Z) :
  d <> Decimal.Nil ->
  Py.digits acc false (list_ascii_of_string (NilEmpty.string_of_uint d))
  = Some (uint_value acc d).
Proof.
  destruct d; intros Hn; [contradiction | ..]; simpl; apply digits_after_digit.
Qed.

Lemma strip_no_space (l : list ascii) :
  Forall (fun c => Py.is_space c = false) l -> Py.strip l = l.
Proof.
  assert (L : forall l', Forall (fun c => Py.is_space c = false) l' ->
                         Py.lstrip l' = l').
  { intros l' H. destruct H as [|c l' Hc _]; simpl; [reflexivity | now rewrite Hc]. }
  intros H. unfold Py.strip.
  rewrite (L l H), (L (rev l) (Forall_rev H)). apply rev_involutive.
Qed.

Lemma int_of_numeral (p : positive) :
  Py.digits 0 false (list_ascii_of_string (NilEmpty.string_of_uint (Pos.to_uint p)))
  = Some (Z.pos p).
Proof.
  rewrite digits_numeral by apply Unsigned.to_uint_nonnil.
  now rewrite uint_value_0, Unsigned.of_to.
Qed.

(** X15: [int] reads back what [str] prints: for every integer [n],
    [int(str(n))] is [n].  In particular every option of the Year select
    box, built with [str], is read back by the handler as its year. *)
Theorem X15_int_of_str (n : Z) : Py.int (Py.str n) = Some n.
Proof.
  destruct n as [|p|p]; [reflexivity | |].
  - unfold Py.int. rewrite str_pos_chars.
    pose proof (digit_chars (Pos.to_uint p)) as Hd.
    rewrite strip_no_space
      by (eapply Forall_impl; [|exact Hd]; apply digit_not_space).
    pose proof (int_of_numeral p) as Hint.
    destruct (list_ascii_of_string (NilEmpty.string_of_uint (Pos.to_uint p)))
      as [|c l]; [discriminate Hint|].
    inversion Hd as [|c' l' Hc _]; subst.
    destruct (digit_not_sign c Hc) as [-> ->]. exact Hint.
  - unfold Py.int. rewrite str_neg_chars. cbn [list_ascii_of_string].
    pose proof (digit_chars (Pos.to_uint p)) as Hd.
    rewrite strip_no_space.
    + change (Ascii.eqb "-" "-") with true. cbn iota.
      now rewrite int_of_numeral.
    + constructor; [reflexivity|].
      eapply Forall_impl; [|exact Hd]. apply digit_not_space.
Qed.

(** ** Totals without wrap-around *)

Lemma wrap64_small (z : Z) :
  - 2 ^ 63 <= z < 2 ^ 63 -> Pandas.wrap64 z = z.
Proof.
  intros H. unfold Pandas.wrap64. rewrite Z.mod_small; lia.
Qed.

(** X16: for a frame whose count columns are [int64], the totals are the
    exact sums of the columns whenever these sums fit in [int64] too; only
    beyond that range do they wrap around. *)
Theorem X16_totals_exact (df : list Row) :
  int64_counts df ->
  in_int64 (zsum (map (fun r => Dengue_Cases (columns r)) df)) ->
  in_int64 (zsum (map (fun r => Dengue_Deaths (columns r)) df)) ->
  total_cases df = zsum (map (fun r => Dengue_Cases (columns r)) df)
  /\ total_deaths df = zsum (map (fun r => Dengue_Deaths (columns r)) df).
Proof.
  intros _ Hc Hd. unfold total_cases, total_deaths.
  rewrite !sum_exact. split; now apply wrap64_small.
Qed.

Lemma X16_witness :
  int64_counts sample_df
  /\ total_cases sample_df = 34 /\ total_deaths sample_df = 5.
Proof.
  assert (Hcells : int64_counts sample_df).
  { unfold int64_counts, in_int64, sample_df, sample_csv, obs.
    repeat constructor; simpl; lia. }
  split; [exact Hcells|].
  apply (X16_totals_exact sample_df Hcells); unfold in_int64; vm_compute;
    split; congruence.
Defined.
